(** * Universal Change Calculator: a shallow embedding and its properties

    The development embeds
    [time_dilation_visualizer/core/universal_change.py]:
    the [PhysicsParameters] record and the methods of
    [UniversalChangeCalculator].

    Python's [float] is IEEE 754 binary64.  It is modelled by the
    Standard Library's executable specification of binary floating point
    ([SpecFloat], precision 53, [emax] 1024), so that every method can be
    evaluated on concrete inputs and rounding, infinities and NaN behave
    as they do in the interpreter.  [warnings.warn] is modelled by a log of
    emitted messages and exceptions by an explicit outcome. *)

From Stdlib Require Import ZArith Bool List Lia.
From Stdlib Require Import Floats.SpecFloat.
From stdpp Require Import gmap strings.

Local Open Scope Z_scope.

(* ===================================================================== *)
(** ** Python floats *)
(* ===================================================================== *)

Module PyFloat.

Definition prec : Z := 53.
Definition emax : Z := 1024.

Definition float : Type := spec_float.

Definition pos_inf : float := S754_infinity false.
Definition neg_inf : float := S754_infinity true.
Definition nan : float := S754_nan.
Definition zero : float := S754_zero false.
Definition neg_zero : float := S754_zero true.

(** [abs(x)], [x < y], [x <= y], [x == y], [x != y], [x > y]. *)
Definition fabs (x : float) : float := SFabs x.
Definition flt (x y : float) : bool := SFltb x y.
Definition fle (x y : float) : bool := SFleb x y.
Definition feq (x y : float) : bool := SFeqb x y.
Definition fne (x y : float) : bool := negb (SFeqb x y).
Definition fgt (x y : float) : bool := SFltb y x.

(** Unary minus. *)
Definition fneg (x : float) : float := SFopp x.

(** [x - y] and the IEEE quotient; Python's [/] adds a zero test, see
    [Py.truediv]. *)
Definition fsub (x y : float) : float := SFsub prec emax x y.
Definition fdiv (x y : float) : float := SFdiv prec emax x y.

(** [math.isnan], [math.isinf], [math.isfinite]. *)
Definition isnan (x : float) : bool :=
  match x with S754_nan => true | _ => false end.
Definition isinf (x : float) : bool :=
  match x with S754_infinity _ => true | _ => false end.
Definition isfinite (x : float) : bool :=
  match x with S754_zero _ | S754_finite _ _ _ => true | _ => false end.

(** The sign bit, as [math.copysign(1.0, x) < 0] reads it. *)
Definition signbit (x : float) : bool :=
  match x with
  | S754_zero s | S754_infinity s | S754_finite s _ _ => s
  | S754_nan => false
  end.

(** The decimal literal [m]e[k]: the binary64 value nearest to
    [m * 10^k].  For a negative [k] the quotient of the two integers is
    rounded once. *)
Definition literal (m : positive) (k : Z) : float :=
  match k with
  | Zneg p => SFdiv prec emax (S754_finite false m 0)
                              (S754_finite false (10 ^ p)%positive 0)
  | _ => binary_normalize prec emax (Zpos m * 10 ^ k) 0 false
  end.

(** [within_half_ulp num den x]: the finite float [x = mx * 2^ex] lies
    within half a unit of its last place of the rational [num / den]
    ([den > 0]); the check is carried out on integers. *)
Definition within_half_ulp (num den : Z) (x : float) : bool :=
  match x with
  | S754_finite s mx ex =>
      let v := if s then Z.neg mx else Z.pos mx in
      if 0 <=? ex
      then 2 * Z.abs (v * 2 ^ ex * den - num) <=? 2 ^ ex * den
      else 2 * Z.abs (v * den - num * 2 ^ (- ex)) <=? den
  | _ => false
  end.

(** A literal is certified when it is a normal binary64 number within
    half an ulp of the decimal it denotes. *)
Definition certified (num den : Z) (x : float) : bool :=
  valid_binary prec emax x
  && match x with
     | S754_finite _ mx _ => Z.pos (digits2_pos mx) =? prec
     | _ => false
     end
  && within_half_ulp num den x.

End PyFloat.

Import PyFloat.

(* ===================================================================== *)
(** ** Warnings and exceptions *)
(* ===================================================================== *)

Module Py.

Inductive exn : Type :=
| ZeroDivisionError
| TypeError.

Inductive outcome (A : Type) : Type :=
| Return (a : A)
| Raise (e : exn).
Arguments Return {A} a.
Arguments Raise {A} e.

(** A computation yields the warnings it emitted, in order, and how it
    ended. *)
Definition M (A : Type) : Type := (list string * outcome A)%type.

Definition ret {A} (a : A) : M A := ([], Return a).
Definition raise {A} (e : exn) : M A := ([], Raise e).
Definition warn (msg : string) : M unit := ([msg], Return tt).

Definition bind {A B} (c : M A) (k : A -> M B) : M B :=
  match c with
  | (w, Return a) => let '(w', r) := k a in (w ++ w', r)
  | (w, Raise e) => (w, Raise e)
  end.

Definition warnings {A} (c : M A) : list string := fst c.
Definition result {A} (c : M A) : outcome A := snd c.

(** Python's true division on floats: a zero divisor raises. *)
Definition truediv (x y : float) : M float :=
  if feq y zero then raise ZeroDivisionError else ret (fdiv x y).

End Py.

Import Py.

Notation "'let*' x := c 'in' k" := (Py.bind c (fun x => k))
  (at level 10, x name, c at level 100, k at level 200,
   format "'[v' 'let*'  x  :=  c  'in' '/' k ']'").

(* ===================================================================== *)
(** ** The data model *)
(* ===================================================================== *)

(** [PhysicsParameters]: every field is optional and defaults to [None]. *)
Record PhysicsParameters : Type := {
  nu : option float;
  epsilon : option float;
  psi : option float;
  zeta : option float;
  delta_s : option float;
  t : option float;
  chi : option float;
  rho : option float;
  mu : option float;
  tau : option float
}.

(** [PhysicsParameters()] with no argument. *)
Definition PhysicsParameters_default : PhysicsParameters :=
  {| nu := None; epsilon := None; psi := None; zeta := None;
     delta_s := None; t := None; chi := None; rho := None;
     mu := None; tau := None |}.

(** The calculator object carries its tolerance. *)
Record UniversalChangeCalculator : Type := {
  tolerance : float
}.

(** [__init__]: [self.tolerance = 1e-10]. *)
Definition UniversalChangeCalculator_init : UniversalChangeCalculator :=
  {| tolerance := literal 1 (-10) |}.

(* ===================================================================== *)
(** ** The formulations *)
(* ===================================================================== *)

(** The texts passed to [warnings.warn]. *)
Definition warn_epsilon : string :=
  "Epsilon approaching zero - quantum uncertainty limit".
Definition warn_delta_zeta : string :=
  "Delta zeta approaching zero - state change singularity".
Definition warn_chi_thermo : string :=
  "Chi approaching zero - no resistance to change".
Definition warn_time : string :=
  "Time approaching zero - instantaneous change".
Definition warn_chi_grav : string :=
  "Chi approaching zero - gravitational singularity".
Definition warn_mu : string :=
  "Mu approaching zero - time dilation approaching infinity".
Definition warn_tau : string :=
  "Tau approaching zero - change flow approaching infinity".

Definition calculate_mu_quantum (self : UniversalChangeCalculator)
    (nu epsilon : float) : M float :=
  if flt (fabs epsilon) (tolerance self) then
    let* _ := warn warn_epsilon in
    ret (if fgt nu zero then pos_inf else zero)
  else truediv nu epsilon.

Definition calculate_mu_state (self : UniversalChangeCalculator)
    (psi1 psi2 zeta1 zeta2 : float) : M float :=
  let delta_psi := fsub psi2 psi1 in
  let delta_zeta := fsub zeta2 zeta1 in
  if flt (fabs delta_zeta) (tolerance self) then
    let* _ := warn warn_delta_zeta in
    ret (if fgt delta_psi zero then pos_inf else zero)
  else truediv delta_psi delta_zeta.

Definition calculate_mu_thermodynamic (self : UniversalChangeCalculator)
    (delta_s t chi : float) : M float :=
  if flt (fabs chi) (tolerance self) then
    let* _ := warn warn_chi_thermo in
    ret pos_inf
  else if flt (fabs t) (tolerance self) then
    let* _ := warn warn_time in
    ret (if fne delta_s zero then pos_inf else zero)
  else
    let* entropy_rate := truediv delta_s t in
    truediv entropy_rate chi.

Definition calculate_mu_gravitational (self : UniversalChangeCalculator)
    (rho chi : float) : M float :=
  if flt (fabs chi) (tolerance self) then
    let* _ := warn warn_chi_grav in
    ret pos_inf
  else truediv rho chi.

Definition calculate_tau_from_mu (self : UniversalChangeCalculator)
    (mu : float) : M float :=
  if flt (fabs mu) (tolerance self) then
    let* _ := warn warn_mu in
    ret pos_inf
  else truediv (literal 1 0) mu.

Definition calculate_mu_from_tau (self : UniversalChangeCalculator)
    (tau : float) : M float :=
  if flt (fabs tau) (tolerance self) then
    let* _ := warn warn_tau in
    ret pos_inf
  else truediv (literal 1 0) tau.

(* ===================================================================== *)
(** ** Scenario presets *)
(* ===================================================================== *)

(** A keyword argument is a number or a pair of numbers (a range). *)
Inductive kwarg : Type :=
| KFloat (x : float)
| KRange (lo hi : float).

(** The values stored in the result dictionary. *)
Inductive value : Type :=
| VStr (s : string)
| VFloat (x : float)
| VParams (params : gmap string kwarg).

(** [params.get(key, default)] used as a number.  The formulations are
    typed by their annotations, so a keyword of the wrong shape raises
    [TypeError] when it is fetched. *)
Definition get_float (params : gmap string kwarg) (key : string)
    (default : float) : M float :=
  match params !! key with
  | None => ret default
  | Some (KFloat x) => ret x
  | Some (KRange _ _) => raise TypeError
  end.

(** [a, b = params.get(key, default)]: unpacking a number raises. *)
Definition get_range (params : gmap string kwarg) (key : string)
    (default : float * float) : M (float * float) :=
  match params !! key with
  | None => ret default
  | Some (KRange lo hi) => ret (lo, hi)
  | Some (KFloat _) => raise TypeError
  end.

(** [results.update({'mu': mu, 'tau': tau, 'analysis': analysis})]. *)
Definition update_results (results : gmap string value)
    (mu tau : float) (analysis : string) : gmap string value :=
  <["analysis" := VStr analysis]>
    (<["tau" := VFloat tau]> (<["mu" := VFloat mu]> results)).

Definition simulate_scenario (self : UniversalChangeCalculator)
    (scenario : string) (params : gmap string kwarg)
    : M (gmap string value) :=
  let results : gmap string value :=
    <["parameters" := VParams params]> {["scenario" := VStr scenario]} in
  if bool_decide (scenario = "black_hole") then
    let* chi := get_float params "chi" (literal 1 6) in
    let* rho := get_float params "rho" (literal 1 3) in
    let* mu := calculate_mu_gravitational self rho chi in
    let* tau := calculate_tau_from_mu self mu in
    ret (update_results results mu tau "Time stops at singularity")
  else if bool_decide (scenario = "light_speed") then
    let* epsilon := get_float params "epsilon" (literal 1 (-10)) in
    let* nu := get_float params "nu" (literal 1 0) in
    let* mu := calculate_mu_quantum self nu epsilon in
    let* tau := calculate_tau_from_mu self mu in
    ret (update_results results mu tau "Light experiences no time")
  else if bool_decide (scenario = "quantum_vacuum") then
    let* psi := get_range params "psi_range" (zero, literal 1 0) in
    let* zeta := get_range params "zeta_range" (zero, literal 1 (-1)) in
    let* mu := calculate_mu_state self (fst psi) (snd psi)
                                       (fst zeta) (snd zeta) in
    let* tau := calculate_tau_from_mu self mu in
    ret (update_results results mu tau "Vacuum fluctuation dynamics")
  else if bool_decide (scenario = "universe_expansion") then
    let* delta_s := get_float params "delta_s" (literal 1 23) in
    let* t := get_float params "t" (literal 1 17) in
    let* chi := get_float params "chi" (literal 1 6) in
    let* mu := calculate_mu_thermodynamic self delta_s t chi in
    let* tau := calculate_tau_from_mu self mu in
    ret (update_results results mu tau "Cosmic expansion dynamics")
  else ret results.

(** The four names the dispatcher knows. *)
Definition presets : list string :=
  ["black_hole"; "light_speed"; "quantum_vacuum"; "universe_expansion"].

(* ===================================================================== *)
(** ** Parameter validation *)
(* ===================================================================== *)

Definition msg_epsilon : string :=
  "Epsilon (perturbation) should be positive".
Definition msg_chi : string :=
  "Chi (resistance to change) must be positive".
Definition msg_t : string := "Time must be positive".
Definition msg_rho : string :=
  "Energy density (rho) should be non-negative".
Definition msg_mu_tau : string :=
  "Mu and tau are inconsistent (τ ≠ 1/μ)".

(** [field is not None and test(field)]. *)
Definition present_and (field : option float) (test : float -> bool)
    : bool :=
  match field with
  | Some x => test x
  | None => false
  end.

(** [if cond: errors.append(msg)]. *)
Definition append_if (cond : bool) (msg : string) (errors : list string)
    : list string :=
  if cond then errors ++ [msg] else errors.

Definition validate_parameters (self : UniversalChangeCalculator)
    (params : PhysicsParameters) : M (bool * list string) :=
  let errors : list string := [] in
  let errors :=
    append_if (present_and (epsilon params) (fun e => flt e zero))
              msg_epsilon errors in
  let errors :=
    append_if (present_and (chi params) (fun c => fle c zero))
              msg_chi errors in
  let errors :=
    append_if (present_and (t params) (fun x => fle x zero))
              msg_t errors in
  let errors :=
    append_if (present_and (rho params) (fun r => flt r zero))
              msg_rho errors in
  let* errors :=
    match mu params, tau params with
    | Some m, Some ta =>
        let* expected_tau :=
          if fne m zero then truediv (literal 1 0) m else ret pos_inf in
        ret (append_if (fgt (fabs (fsub ta expected_tau)) (tolerance self))
                       msg_mu_tau errors)
    | _, _ => ret errors
    end in
  ret (Nat.eqb (length errors) 0, errors).

(** The calculator the callers build: [UniversalChangeCalculator()]. *)
Definition calculator : UniversalChangeCalculator :=
  UniversalChangeCalculator_init.

(** The consistency invariant of [PhysicsParameters] fails: [mu] and
    [tau] are both present and [tau] differs from [1/mu] by more than the
    tolerance, [1/mu] being read as [+inf] when [mu == 0]. *)
Definition mu_tau_inconsistent (self : UniversalChangeCalculator)
    (params : PhysicsParameters) : bool :=
  match mu params, tau params with
  | Some m, Some ta =>
      fgt (fabs (fsub ta (if fne m zero
                          then fdiv (literal 1 0) m else pos_inf)))
          (tolerance self)
  | _, _ => false
  end.

(** [PhysicsParameters(chi=-1, t=-1)]. *)
Definition params_chi_t_negative : PhysicsParameters :=
  {| nu := None; epsilon := None; psi := None; zeta := None;
     delta_s := None; t := Some (fneg (literal 1 0));
     chi := Some (fneg (literal 1 0)); rho := None;
     mu := None; tau := None |}.

(** [abs(x - y) < eps], the closeness test of the unit tests. *)
Definition within (x y eps : float) : bool := flt (fabs (fsub x y)) eps.

(** The two conversions in sequence, as the unit tests chain them:
    [calculate_mu_from_tau(calculate_tau_from_mu(mu))]. *)
Definition round_trip (self : UniversalChangeCalculator) (mu : float)
    : M float :=
  let* tau := calculate_tau_from_mu self mu in
  calculate_mu_from_tau self tau.

(** [PhysicsParameters(mu=m, tau=ta)]. *)
Definition params_mu_tau (m ta : float) : PhysicsParameters :=
  {| nu := None; epsilon := None; psi := None; zeta := None;
     delta_s := None; t := None; chi := None; rho := None;
     mu := Some m; tau := Some ta |}.

(** A field that is [None] or holds a NaN. *)
Definition nan_or_absent (field : option float) : bool :=
  match field with
  | Some x => isnan x
  | None => true
  end.

(** The five messages of [validate_parameters], in the order of its
    checks. *)
Definition all_messages : list string :=
  [msg_epsilon; msg_chi; msg_t; msg_rho; msg_mu_tau].

(** The dictionary [simulate_scenario] starts from:
    [{'scenario': scenario, 'parameters': params}]. *)
Definition echo (scenario : string) (params : gmap string kwarg)
    : gmap string value :=
  <["parameters" := VParams params]> {["scenario" := VStr scenario]}.

(** The keyword is absent or a number. *)
Definition is_number (params : gmap string kwarg) (key : string) : bool :=
  match params !! key with
  | Some (KRange _ _) => false
  | _ => true
  end.

(** The keyword is absent or a pair. *)
Definition is_pair (params : gmap string kwarg) (key : string) : bool :=
  match params !! key with
  | Some (KFloat _) => false
  | _ => true
  end.

(** The keywords a branch of [simulate_scenario] fetches have the shape it
    uses them in. *)
Definition well_typed (scenario : string) (params : gmap string kwarg)
    : bool :=
  if bool_decide (scenario = "black_hole") then
    is_number params "chi" && is_number params "rho"
  else if bool_decide (scenario = "light_speed") then
    is_number params "epsilon" && is_number params "nu"
  else if bool_decide (scenario = "quantum_vacuum") then
    is_pair params "psi_range" && is_pair params "zeta_range"
  else if bool_decide (scenario = "universe_expansion") then
    is_number params "delta_s" && is_number params "t"
    && is_number params "chi"
  else true.

(* ===================================================================== *)
(** ** Callers *)
(* ===================================================================== *)

(** [QuantumVacuumSimulation.calculate_vacuum_mu] of
    [quantum_vacuum_simulation.py]:
    [self.calc.calculate_mu_state(0, delta_psi, 0, delta_zeta)]. *)
Definition calculate_vacuum_mu (calc : UniversalChangeCalculator)
    (delta_psi delta_zeta : float) : M float :=
  calculate_mu_state calc zero delta_psi zero delta_zeta.

(** [SimpleUniversalChange] of [simple_earth_sim.py] and
    [RefinedUniversalChange] of [refined_earth_sim.py]: the same two
    methods, word for word, with a guard of [1e-15] and no warning. *)
Module SimpleUniversalChange.

Definition guard : float := literal 1 (-15).

Definition calculate_mu_gravitational (rho chi : float) : M float :=
  if flt (fabs chi) guard then ret pos_inf else truediv rho chi.

Definition calculate_tau_from_mu (mu : float) : M float :=
  if flt (fabs mu) guard then ret pos_inf else truediv (literal 1 0) mu.

End SimpleUniversalChange.

(** The mantissa of a power of two. *)
Definition one_mantissa : positive := 4503599627370496.

(* ===================================================================== *)
(** * Properties *)
(* ===================================================================== *)

(** ** Comparisons of floats *)

Lemma SFcompare_antisym (x y : float) :
  SFcompare y x = option_map CompOpp (SFcompare x y).
Proof.
  destruct x as [sx | sx | | sx mx ex], y as [sy | sy | | sy my ey];
    simpl; try reflexivity;
    try (destruct sx; reflexivity); try (destruct sy; reflexivity);
    try (destruct sx, sy; reflexivity).
  pose proof (Pos.compare_cont_antisym mx my Eq) as Hm. simpl in Hm.
  destruct sx, sy; simpl; try reflexivity;
    rewrite (Z.compare_antisym ex ey);
    destruct (ex ?= ey); simpl; try reflexivity;
    f_equal; congruence.
Qed.

Lemma fle_flt_false (x y : float) : fle x y = true -> flt y x = false.
Proof.
  unfold fle, flt, SFleb, SFltb. rewrite (SFcompare_antisym x y).
  destruct (SFcompare x y) as [[ | | ] | ]; simpl; congruence.
Qed.

Lemma flt_fle (x y : float) : flt x y = true -> fle x y = true.
Proof.
  unfold fle, flt, SFleb, SFltb.
  destruct (SFcompare x y) as [[ | | ] | ]; congruence.
Qed.

(** A float that compares equal to zero is a zero, so its magnitude is
    below any positive bound. *)
Lemma feq_zero_inv (x : float) :
  feq x zero = true -> x = zero \/ x = neg_zero.
Proof.
  destruct x as [[ | ] | [ | ] | | [ | ] m e]; simpl;
    try discriminate; auto.
Qed.

Lemma flt_fabs_of_zero (tol x : float) :
  flt zero tol = true -> feq x zero = true -> flt (fabs x) tol = true.
Proof.
  intros Htol Hx. destruct (feq_zero_inv x Hx) as [-> | ->]; exact Htol.
Qed.

Lemma tolerance_positive : flt zero (tolerance calculator) = true.
Proof. vm_compute. reflexivity. Qed.

(** The literals of the module are the nearest binary64 numbers to the
    decimals they are written as. *)
Lemma literals_certified :
  certified 1 (10 ^ 10) (literal 1 (-10)) = true /\
  certified 1 1 (literal 1 0) = true /\
  certified 1 10 (literal 1 (-1)) = true /\
  certified (10 ^ 3) 1 (literal 1 3) = true /\
  certified (10 ^ 6) 1 (literal 1 6) = true /\
  certified (10 ^ 10) 1 (literal 1 10) = true /\
  certified (10 ^ 17) 1 (literal 1 17) = true /\
  certified (10 ^ 23) 1 (literal 1 23) = true /\
  certified 1 (10 ^ 94) (literal 1 (-94)) = true /\
  certified 1 (10 ^ 100) (literal 1 (-100)) = true /\
  certified (10 ^ 94) 1 (literal 1 94) = true /\
  certified (10 ^ 100) 1 (literal 1 100) = true.
Proof. vm_compute. repeat split; reflexivity. Qed.

(** ** Guarded divisions never raise *)

Section Guarded.

Variable self : UniversalChangeCalculator.
Hypothesis tolerance_pos : flt zero (tolerance self) = true.

Lemma guard_nonzero (y : float) :
  flt (fabs y) (tolerance self) = false -> feq y zero = false.
Proof.
  intros Hy. destruct (feq y zero) eqn:E; [ | reflexivity ].
  rewrite (flt_fabs_of_zero _ _ tolerance_pos E) in Hy. discriminate.
Qed.

Lemma truediv_guarded (x y : float) :
  flt (fabs y) (tolerance self) = false ->
  truediv x y = ret (fdiv x y).
Proof.
  intros Hy. unfold truediv. rewrite (guard_nonzero y Hy). reflexivity.
Qed.

Lemma far_from_zero (y : float) :
  fle (tolerance self) (fabs y) = true ->
  flt (fabs y) (tolerance self) = false.
Proof. apply fle_flt_false. Qed.

End Guarded.

Lemma truediv_ok (x y : float) :
  flt (fabs y) (tolerance calculator) = false ->
  truediv x y = ret (fdiv x y).
Proof. exact (truediv_guarded calculator tolerance_positive x y). Qed.

Lemma truediv_far (x y : float) :
  fle (tolerance calculator) (fabs y) = true ->
  truediv x y = ret (fdiv x y).
Proof. intros Hy. apply truediv_ok, fle_flt_false, Hy. Qed.

(** Closing tactic for statements about concrete inputs. *)
Ltac by_evaluation := vm_compute; repeat split; reflexivity.

(** Take the far-from-zero branch of a guard [if flt (fabs y) tol]. *)
Ltac take_far H :=
  rewrite (fle_flt_false _ _ H); try rewrite (truediv_far _ _ H).

(** ** The formulations *)

(** C6. [mu_quantum(nu, epsilon)] is [nu / epsilon] when [|epsilon|] is at
    least the tolerance; below the tolerance it emits the near-zero
    warning and returns [+inf] when [nu > 0] and [0.0] otherwise; so
    [mu_quantum(1.0, 0.0)] is [+inf], with the warning, and
    [mu_quantum(0.0, 0.0)] is [0.0]. *)
Theorem mu_quantum_contract :
  (forall nu epsilon : float,
      fle (tolerance calculator) (fabs epsilon) = true ->
      calculate_mu_quantum calculator nu epsilon
      = ([], Return (fdiv nu epsilon))) /\
  (forall nu epsilon : float,
      flt (fabs epsilon) (tolerance calculator) = true ->
      calculate_mu_quantum calculator nu epsilon
      = ([warn_epsilon], Return (if fgt nu zero then pos_inf else zero))) /\
  calculate_mu_quantum calculator (literal 1 0) zero
  = ([warn_epsilon], Return pos_inf) /\
  calculate_mu_quantum calculator zero zero
  = ([warn_epsilon], Return zero).
Proof.
  split; [ | split; [ | by_evaluation ] ].
  - intros nu epsilon H. unfold calculate_mu_quantum. take_far H.
    reflexivity.
  - intros nu epsilon H. unfold calculate_mu_quantum. rewrite H.
    reflexivity.
Qed.

Lemma mu_quantum_contract_witness :
  (fle (tolerance calculator) (fabs (literal 5 (-1))) = true /\
   calculate_mu_quantum calculator (literal 1 0) (literal 5 (-1))
   = ([], Return (fdiv (literal 1 0) (literal 5 (-1))))) /\
  (flt (fabs (literal 1 (-11))) (tolerance calculator) = true /\
   calculate_mu_quantum calculator (fneg (literal 3 0)) (literal 1 (-11))
   = ([warn_epsilon], Return zero)).
Proof.
  destruct mu_quantum_contract as [Hfar [Hnear _]].
  split; split.
  - vm_compute; reflexivity.
  - apply Hfar. vm_compute; reflexivity.
  - vm_compute; reflexivity.
  - apply (Hnear (fneg (literal 3 0)) (literal 1 (-11))).
    vm_compute; reflexivity.
Defined.

(** C9. Whatever [rho] is (zero and negative values included), a [chi]
    whose magnitude is below the tolerance makes [mu_gravitational]
    return [+inf] and emit the near-zero warning; so does
    [mu_gravitational(1.0, 0.0)]. *)
Theorem mu_gravitational_degenerate_chi :
  (forall rho chi : float,
      flt (fabs chi) (tolerance calculator) = true ->
      calculate_mu_gravitational calculator rho chi
      = ([warn_chi_grav], Return pos_inf)) /\
  calculate_mu_gravitational calculator (literal 1 0) zero
  = ([warn_chi_grav], Return pos_inf).
Proof.
  split; [ | by_evaluation ].
  intros rho chi H. unfold calculate_mu_gravitational. rewrite H.
  reflexivity.
Qed.

Lemma mu_gravitational_degenerate_chi_witness :
  flt (fabs (fneg (literal 1 (-11)))) (tolerance calculator) = true /\
  calculate_mu_gravitational calculator (fneg (literal 2 0))
                                        (fneg (literal 1 (-11)))
  = ([warn_chi_grav], Return pos_inf).
Proof.
  split.
  - vm_compute; reflexivity.
  - apply (proj1 mu_gravitational_degenerate_chi). vm_compute; reflexivity.
Defined.

(** C8. For every [rho] and every [chi] whose magnitude is at least the
    tolerance, [mu_gravitational(rho, chi)] is exactly the quotient
    [rho / chi]; [mu_gravitational(1e10, 1e10)] is within [1e-10] of
    [1.0], and so is the [tau] computed from it. *)
Theorem mu_gravitational_is_quotient :
  (forall rho chi : float,
      fle (tolerance calculator) (fabs chi) = true ->
      calculate_mu_gravitational calculator rho chi
      = ([], Return (fdiv rho chi))) /\
  (exists m ta : float,
      calculate_mu_gravitational calculator (literal 1 10) (literal 1 10)
      = ([], Return m) /\
      within m (literal 1 0) (literal 1 (-10)) = true /\
      calculate_tau_from_mu calculator m = ([], Return ta) /\
      within ta (literal 1 0) (literal 1 (-10)) = true).
Proof.
  split.
  - intros rho chi H. unfold calculate_mu_gravitational. take_far H.
    reflexivity.
  - exists (literal 1 0), (literal 1 0). by_evaluation.
Qed.

Lemma mu_gravitational_is_quotient_witness :
  fle (tolerance calculator) (fabs (literal 1 6)) = true /\
  calculate_mu_gravitational calculator (literal 1 10) (literal 1 6)
  = ([], Return (fdiv (literal 1 10) (literal 1 6))).
Proof.
  split.
  - vm_compute; reflexivity.
  - apply (proj1 mu_gravitational_is_quotient). vm_compute; reflexivity.
Defined.

(** C4. [mu_thermodynamic(delta_s, t, chi)] is [(delta_s / t) / chi] when
    the magnitudes of [chi] and [t] are both at least the tolerance.  The
    denominators are tested [chi] first: a [chi] below the tolerance gives
    [+inf] whatever [delta_s] and [t] are, and with [chi] away from zero a
    [t] below the tolerance gives [+inf] when [delta_s != 0] and [0.0]
    when [delta_s == 0]. *)
Theorem mu_thermodynamic_contract :
  (forall delta_s t chi : float,
      fle (tolerance calculator) (fabs chi) = true ->
      fle (tolerance calculator) (fabs t) = true ->
      calculate_mu_thermodynamic calculator delta_s t chi
      = ([], Return (fdiv (fdiv delta_s t) chi))) /\
  (forall delta_s t chi : float,
      flt (fabs chi) (tolerance calculator) = true ->
      calculate_mu_thermodynamic calculator delta_s t chi
      = ([warn_chi_thermo], Return pos_inf)) /\
  (forall delta_s t chi : float,
      fle (tolerance calculator) (fabs chi) = true ->
      flt (fabs t) (tolerance calculator) = true ->
      calculate_mu_thermodynamic calculator delta_s t chi
      = ([warn_time],
         Return (if fne delta_s zero then pos_inf else zero))).
Proof.
  split; [ | split ].
  - intros delta_s t chi Hchi Ht. unfold calculate_mu_thermodynamic.
    rewrite (fle_flt_false _ _ Hchi), (fle_flt_false _ _ Ht).
    rewrite (truediv_far _ _ Ht). simpl. rewrite (truediv_far _ _ Hchi).
    reflexivity.
  - intros delta_s t chi Hchi. unfold calculate_mu_thermodynamic.
    rewrite Hchi. reflexivity.
  - intros delta_s t chi Hchi Ht. unfold calculate_mu_thermodynamic.
    rewrite (fle_flt_false _ _ Hchi), Ht. reflexivity.
Qed.

Lemma mu_thermodynamic_contract_witness :
  (fle (tolerance calculator) (fabs (literal 5 0)) = true /\
   fle (tolerance calculator) (fabs (literal 1 1)) = true /\
   calculate_mu_thermodynamic calculator (literal 1 2) (literal 1 1)
                                         (literal 5 0)
   = ([], Return (literal 2 0))) /\
  (flt (fabs zero) (tolerance calculator) = true /\
   calculate_mu_thermodynamic calculator zero zero zero
   = ([warn_chi_thermo], Return pos_inf)) /\
  (fle (tolerance calculator) (fabs (literal 5 0)) = true /\
   flt (fabs zero) (tolerance calculator) = true /\
   calculate_mu_thermodynamic calculator zero zero (literal 5 0)
   = ([warn_time], Return zero)).
Proof.
  destruct mu_thermodynamic_contract as [Hreg [Hchi Ht]].
  split; [ | split ].
  - split; [ vm_compute; reflexivity | ].
    split; [ vm_compute; reflexivity | ].
    rewrite (Hreg (literal 1 2) (literal 1 1) (literal 5 0));
      vm_compute; reflexivity.
  - split; [ vm_compute; reflexivity | ].
    apply Hchi. vm_compute; reflexivity.
  - split; [ vm_compute; reflexivity | ].
    split; [ vm_compute; reflexivity | ].
    rewrite (Ht zero zero (literal 5 0)); vm_compute; reflexivity.
Defined.

(** C3. At the small extreme the resistance [1e-94] is itself below the
    tolerance, so [mu_gravitational(1e-100, 1e-94)] takes the near-zero
    branch: it warns and returns [+inf], which is not a finite value.  At
    the large extreme [mu_gravitational(1e100, 1e94)] is a finite
    quotient. *)
Theorem mu_gravitational_small_extreme_is_infinite :
  calculate_mu_gravitational calculator (literal 1 (-100)) (literal 1 (-94))
  = ([warn_chi_grav], Return pos_inf) /\
  isinf pos_inf = true /\
  isfinite pos_inf = false /\
  (exists m : float,
      calculate_mu_gravitational calculator (literal 1 100) (literal 1 94)
      = ([], Return m) /\
      isfinite m = true /\ isnan m = false /\ isinf m = false).
Proof.
  split; [ by_evaluation | ]. split; [ reflexivity | ].
  split; [ reflexivity | ].
  exists (fdiv (literal 1 100) (literal 1 94)). by_evaluation.
Qed.

(** ** Scenario presets *)

(** C7. [simulate_scenario('black_hole', chi=1e6, rho=1e3)] returns a
    result whose [mu] is below 1 and
    [simulate_scenario('light_speed', epsilon=1e-10, nu=1.0)] one whose
    [mu] is above 1: an [epsilon] equal to the tolerance is not below it,
    so the near-zero branch does not fire. *)
Theorem scenario_sanity :
  (exists (r : gmap string value) (m : float),
      simulate_scenario calculator "black_hole"
        (<["chi" := KFloat (literal 1 6)]>
           {["rho" := KFloat (literal 1 3)]})
      = ([], Return r) /\
      r !! "mu" = Some (VFloat m) /\
      flt m (literal 1 0) = true) /\
  (exists (r : gmap string value) (m : float),
      simulate_scenario calculator "light_speed"
        (<["epsilon" := KFloat (literal 1 (-10))]>
           {["nu" := KFloat (literal 1 0)]})
      = ([], Return r) /\
      r !! "mu" = Some (VFloat m) /\
      fgt m (literal 1 0) = true) /\
  flt (fabs (literal 1 (-10))) (tolerance calculator) = false.
Proof.
  split; [ | split; [ | by_evaluation ] ].
  - eexists (update_results _ (fdiv (literal 1 3) (literal 1 6)) _ _),
            (fdiv (literal 1 3) (literal 1 6)).
    split; [ reflexivity | by_evaluation ].
  - eexists (update_results _ (fdiv (literal 1 0) (literal 1 (-10))) _ _),
            (fdiv (literal 1 0) (literal 1 (-10))).
    split; [ reflexivity | by_evaluation ].
Qed.

Lemma not_preset (scenario : string) :
  (scenario ∉ presets) ->
  scenario <> "black_hole" /\ scenario <> "light_speed" /\
  scenario <> "quantum_vacuum" /\ scenario <> "universe_expansion".
Proof.
  unfold presets. intros H. repeat split; intros ->; apply H;
    repeat (first [ apply list_elem_of_here | apply list_elem_of_further ]).
Qed.

(** C1, as the code behaves.  For every scenario name outside the four
    presets [simulate_scenario] returns normally: no exception is raised
    and no warning emitted, and the result holds the scenario name and the
    parameters echoed back and nothing else, so no [mu], [tau] or
    [analysis]. *)
Theorem unknown_scenario_returns_echo
    (scenario : string) (params : gmap string kwarg) :
  (scenario ∉ presets) ->
  exists r : gmap string value,
    simulate_scenario calculator scenario params = ([], Return r) /\
    r = <["parameters" := VParams params]> {["scenario" := VStr scenario]} /\
    r !! "scenario" = Some (VStr scenario) /\
    r !! "parameters" = Some (VParams params) /\
    r !! "mu" = None /\ r !! "tau" = None /\ r !! "analysis" = None.
Proof.
  intros H. destruct (not_preset scenario H) as (H1 & H2 & H3 & H4).
  eexists. split.
  - unfold simulate_scenario.
    rewrite !bool_decide_eq_false_2 by assumption. reflexivity.
  - split; [ reflexivity | ].
    repeat split; by simplify_map_eq.
Qed.

Lemma not_a_scenario_unknown : "not_a_scenario" ∉ presets.
Proof.
  unfold presets. rewrite !not_elem_of_cons.
  repeat split; [ discriminate .. | apply not_elem_of_nil ].
Qed.

Lemma unknown_scenario_returns_echo_witness :
  ("not_a_scenario" ∉ presets) /\
  exists r : gmap string value,
    simulate_scenario calculator "not_a_scenario" ∅ = ([], Return r) /\
    r = <["parameters" := VParams ∅]>
          {["scenario" := VStr "not_a_scenario"]} /\
    r !! "scenario" = Some (VStr "not_a_scenario") /\
    r !! "parameters" = Some (VParams ∅) /\
    r !! "mu" = None /\ r !! "tau" = None /\ r !! "analysis" = None.
Proof.
  split; [ exact not_a_scenario_unknown | ].
  exact (unknown_scenario_returns_echo "not_a_scenario" ∅
           not_a_scenario_unknown).
Defined.

(** C1, as stated, fails: the name ['not_a_scenario'] is outside the
    presets and the call does not end in an exception. *)
Lemma unknown_scenario_does_not_raise :
  ("not_a_scenario" ∉ presets) /\
  ~ (exists e : exn,
        result (simulate_scenario calculator "not_a_scenario" ∅) = Raise e).
Proof.
  split; [ exact not_a_scenario_unknown | ].
  intros [e He]. vm_compute in He. discriminate.
Qed.

(** ** Parameter validation *)

(** The validator never raises and never warns: its only division is
    taken when [mu != 0]. *)
Lemma validate_parameters_total
    (self : UniversalChangeCalculator) (params : PhysicsParameters) :
  validate_parameters self params =
  let errors :=
    append_if (mu_tau_inconsistent self params) msg_mu_tau
      (append_if (present_and (rho params) (fun r => flt r zero)) msg_rho
         (append_if (present_and (t params) (fun x => fle x zero)) msg_t
            (append_if (present_and (chi params) (fun c => fle c zero))
                       msg_chi
               (append_if (present_and (epsilon params)
                                       (fun e => flt e zero))
                          msg_epsilon [])))) in
  ([], Return (Nat.eqb (length errors) 0, errors)).
Proof.
  unfold validate_parameters, mu_tau_inconsistent.
  destruct (mu params) as [m | ]; [ | reflexivity ].
  destruct (tau params) as [ta | ]; [ | reflexivity ].
  unfold fne, truediv, feq. destruct (SFeqb m zero); reflexivity.
Qed.

Lemma present_and_spec (field : option float) (test : float -> bool) :
  present_and field test = true <->
  exists x, field = Some x /\ test x = true.
Proof.
  destruct field as [x | ]; simpl.
  - split; [ eauto | intros (y & [= <-] & H); exact H ].
  - split; [ discriminate | intros (y & [=] & _) ].
Qed.

Lemma elem_of_decide_iff (m : string) (l : list string) (b : bool) :
  bool_decide (m ∈ l) = b -> (m ∈ l <-> b = true).
Proof.
  intros <-.
  split; [ apply bool_decide_eq_true_2 | apply bool_decide_eq_true_1 ].
Qed.

(** Each message is governed by its own test alone. *)
Lemma errors_membership (b1 b2 b3 b4 b5 : bool) :
  let errors :=
    append_if b5 msg_mu_tau
      (append_if b4 msg_rho
         (append_if b3 msg_t
            (append_if b2 msg_chi (append_if b1 msg_epsilon [])))) in
  (msg_epsilon ∈ errors <-> b1 = true) /\
  (msg_chi ∈ errors <-> b2 = true) /\
  (msg_t ∈ errors <-> b3 = true) /\
  (msg_rho ∈ errors <-> b4 = true) /\
  (msg_mu_tau ∈ errors <-> b5 = true).
Proof.
  destruct b1, b2, b3, b4, b5; cbv zeta;
    split_and!; apply elem_of_decide_iff; vm_compute; reflexivity.
Qed.

(** C5. [validate_parameters] tests the four soft invariants and the
    mu/tau consistency one by one, none hiding another: each message is in
    the returned list exactly when its own field is present and fails its
    own test (epsilon or rho negative, chi or t not positive, tau away
    from 1/mu by more than the tolerance).  [is_valid] is true exactly
    when the list is empty, and [PhysicsParameters(chi=-1, t=-1)] is
    invalid with two distinct messages. *)
Theorem validate_reports_every_violation (params : PhysicsParameters) :
  exists (is_valid : bool) (errors : list string),
    validate_parameters calculator params = ([], Return (is_valid, errors)) /\
    (is_valid = true <-> errors = []) /\
    (msg_epsilon ∈ errors <->
       exists e, epsilon params = Some e /\ flt e zero = true) /\
    (msg_chi ∈ errors <->
       exists c, chi params = Some c /\ fle c zero = true) /\
    (msg_t ∈ errors <->
       exists x, t params = Some x /\ fle x zero = true) /\
    (msg_rho ∈ errors <->
       exists r, rho params = Some r /\ flt r zero = true) /\
    (msg_mu_tau ∈ errors <-> mu_tau_inconsistent calculator params = true) /\
    validate_parameters calculator params_chi_t_negative
    = ([], Return (false, [msg_chi; msg_t])) /\
    msg_chi <> msg_t.
Proof.
  rewrite validate_parameters_total. cbv zeta.
  eexists _, _. split; [ reflexivity | ].
  split; [ rewrite Nat.eqb_eq, length_zero_iff_nil; reflexivity | ].
  rewrite <- !present_and_spec.
  match goal with
  | |- context [append_if ?b5 _ (append_if ?b4 _ (append_if ?b3 _
                  (append_if ?b2 _ (append_if ?b1 _ _))))] =>
      destruct (errors_membership b1 b2 b3 b4 b5) as (H1 & H2 & H3 & H4 & H5)
  end.
  split_and!; try assumption; [ by_evaluation | discriminate ].
Qed.

(* ===================================================================== *)
(** ** Binary64 division *)
(* ===================================================================== *)

(** Special values. *)

Lemma fsub_zero_r (x : float) : fsub x zero = x.
Proof. destruct x as [[ | ] | [ | ] | | s m e]; reflexivity. Qed.

Lemma fsub_nan_r (x : float) : fsub x nan = nan.
Proof. destruct x; reflexivity. Qed.

Lemma fdiv_nan_r (x : float) : fdiv x nan = nan.
Proof. destruct x; reflexivity. Qed.

Lemma isnan_inv (x : float) : isnan x = true -> x = nan.
Proof. destruct x; try discriminate. reflexivity. Qed.

Lemma fabs_fneg (x : float) : fabs (fneg x) = fabs x.
Proof. destruct x; reflexivity. Qed.

Lemma isnan_fabs (x : float) : isnan (fabs x) = isnan x.
Proof. destruct x; reflexivity. Qed.

Lemma digits2_pos_size (p : positive) : digits2_pos p = Pos.size p.
Proof. induction p as [p IH | p IH | ]; simpl; congruence. Qed.

(** [digits2_pos p] is the number of bits of [p]. *)
Lemma digits2_pos_bounds (p : positive) :
  2 ^ (Z.pos (digits2_pos p) - 1) <= Z.pos p < 2 ^ Z.pos (digits2_pos p).
Proof.
  induction p as [p IH | p IH | ]; simpl digits2_pos.
  - rewrite Pos2Z.inj_succ.
    replace (Z.succ (Z.pos (digits2_pos p)) - 1) with (Z.pos (digits2_pos p)) by lia.
    rewrite Z.pow_succ_r by lia.
    assert (H : 2 ^ Z.pos (digits2_pos p) = 2 * 2 ^ (Z.pos (digits2_pos p) - 1)).
    { rewrite <- Z.pow_succ_r by lia. f_equal. lia. }
    lia.
  - rewrite Pos2Z.inj_succ.
    replace (Z.succ (Z.pos (digits2_pos p)) - 1) with (Z.pos (digits2_pos p)) by lia.
    rewrite Z.pow_succ_r by lia.
    assert (H : 2 ^ Z.pos (digits2_pos p) = 2 * 2 ^ (Z.pos (digits2_pos p) - 1)).
    { rewrite <- Z.pow_succ_r by lia. f_equal. lia. }
    lia.
  - simpl. lia.
Qed.

Lemma digits2_pos_unique (p : positive) (d : Z) :
  2 ^ (d - 1) <= Z.pos p < 2 ^ d -> Z.pos (digits2_pos p) = d.
Proof.
  intros [Hlo Hhi]. pose proof (digits2_pos_bounds p) as [Blo Bhi].
  destruct (Z.lt_trichotomy (Z.pos (digits2_pos p)) d) as [Hlt | [Heq | Hgt]];
    [ | exact Heq | ].
  - assert (2 ^ Z.pos (digits2_pos p) <= 2 ^ (d - 1))
      by (apply Z.pow_le_mono_r; lia).
    lia.
  - assert (0 < d).
    { destruct (Z_lt_le_dec 0 d) as [ | Hd ]; [ assumption | ].
      destruct (Z.eq_dec d 0) as [-> | ]; [ simpl in Hhi; lia | ].
      rewrite (Z.pow_neg_r 2 d) in Hhi by lia. lia. }
    assert (2 ^ d <= 2 ^ (Z.pos (digits2_pos p) - 1))
      by (apply Z.pow_le_mono_r; lia).
    lia.
Qed.

Lemma fexp_eq (k : Z) : fexp prec emax k = Z.max (k - 53) (-1074).
Proof. reflexivity. Qed.

Lemma shr_record_of_loc_inv (m : Z) (l : location) :
  shr_m (shr_record_of_loc m l) = m /\
  loc_of_shr_record (shr_record_of_loc m l) = l.
Proof. destruct l as [ | [ | | ] ]; split; reflexivity. Qed.

(** A mantissa of at most 53 bits above the least exponent is kept as it
    is by the pre-rounding shift. *)
Lemma shr_fexp_noshift (q : positive) (e : Z) (l : location) :
  Z.pos (digits2_pos q) <= 53 -> -1074 <= e ->
  shr_fexp prec emax (Z.pos q) e l = (shr_record_of_loc (Z.pos q) l, e).
Proof.
  intros Hd He. unfold shr_fexp, shr. rewrite fexp_eq. simpl Zdigits2.
  destruct (Z.max (Z.pos (digits2_pos q) + e - 53) (-1074) - e) eqn:E;
    [ reflexivity | lia | reflexivity ].
Qed.

(** A mantissa of 54 bits loses its last bit. *)
Lemma shr_fexp_shift1 (q : positive) (e : Z) (l : location) :
  Z.pos (digits2_pos q) = 54 -> -1074 <= e ->
  shr_fexp prec emax (Z.pos q) e l
  = (shr_1 (shr_record_of_loc (Z.pos q) l), e + 1).
Proof.
  intros Hd He. unfold shr_fexp, shr. rewrite fexp_eq. simpl Zdigits2.
  rewrite Hd.
  replace (Z.max (54 + e - 53) (-1074) - e) with 1 by lia.
  reflexivity.
Qed.

Lemma round_nearest_even_cases (q : Z) (l : location) :
  round_nearest_even q l = q \/ round_nearest_even q l = q + 1.
Proof.
  destruct l as [ | [ | | ] ]; simpl; auto. destruct (Z.even q); auto.
Qed.

(** Rounding a mantissa of at most 53 bits: no shift before rounding, and
    at most a carry into the next binade after it. *)
Lemma binary_round_aux_53 (sx : bool) (q : positive) (e : Z) (l : location) :
  Z.pos (digits2_pos q) <= 53 -> -1074 <= e <= 970 ->
  exists q' : positive,
    Z.pos q' = round_nearest_even (Z.pos q) l /\
    ((Z.pos q' < 2 ^ 53 /\
      binary_round_aux prec emax sx (Z.pos q) e l = S754_finite sx q' e) \/
     (Z.pos q' = 2 ^ 53 /\
      binary_round_aux prec emax sx (Z.pos q) e l
      = S754_finite sx 4503599627370496 (e + 1))).
Proof.
  intros Hd He. unfold binary_round_aux.
  rewrite (shr_fexp_noshift q e l Hd) by lia.
  destruct (shr_record_of_loc_inv (Z.pos q) l) as [-> ->].
  pose proof (digits2_pos_bounds q) as [_ Hq].
  assert (Hq53 : Z.pos q < 2 ^ 53).
  { eapply Z.lt_le_trans; [ exact Hq | apply Z.pow_le_mono_r; lia ]. }
  destruct (round_nearest_even_cases (Z.pos q) l) as [Hr | Hr].
  - rewrite Hr. exists q. split; [ reflexivity | left ].
    split; [ exact Hq53 | ].
    rewrite (shr_fexp_noshift q e loc_Exact Hd) by lia. simpl shr_m.
    replace (e <=? emax - prec) with true
      by (symmetry; apply Z.leb_le; unfold emax, prec; lia).
    reflexivity.
  - rewrite Hr. change (Z.pos q + 1) with (Z.pos (q + 1)).
    exists (q + 1)%positive. split; [ reflexivity | ].
    destruct (Z.eq_dec (Z.pos (q + 1)) (2 ^ 53)) as [Heq | Hne].
    + right. split; [ exact Heq | ].
      assert (Hq1 : (q + 1)%positive = 9007199254740992%positive)
        by (apply Pos2Z.inj; exact Heq).
      rewrite Hq1.
      rewrite (shr_fexp_shift1 9007199254740992 e loc_Exact) by
        (try reflexivity; lia).
      simpl shr_m.
      replace (e + 1 <=? emax - prec) with true
        by (symmetry; apply Z.leb_le; unfold emax, prec; lia).
      reflexivity.
    + left. assert (Hlt : Z.pos (q + 1) < 2 ^ 53) by lia.
      split; [ exact Hlt | ].
      assert (Hd' : Z.pos (digits2_pos (q + 1)) <= 53).
      { pose proof (digits2_pos_bounds (q + 1)) as [Hlo _].
        destruct (Z_le_gt_dec (Z.pos (digits2_pos (q + 1))) 53) as [ | Hgt];
          [ assumption | ].
        assert (2 ^ 53 <= 2 ^ (Z.pos (digits2_pos (q + 1)) - 1))
          by (apply Z.pow_le_mono_r; lia).
        lia. }
      rewrite (shr_fexp_noshift (q + 1) e loc_Exact Hd') by lia.
      simpl shr_m.
      replace (e <=? emax - prec) with true
        by (symmetry; apply Z.leb_le; unfold emax, prec; lia).
      reflexivity.
Qed.

(** Rounding a quotient to nearest: with [N = q * m + r] and
    [0 <= r < m], the rounded quotient is within half of [m] of [N]. *)
Lemma round_quotient_nearest (N m q r : Z) :
  N = q * m + r -> 0 <= r < m ->
  2 * Z.abs (round_nearest_even q (new_location m r) * m - N) <= m.
Proof.
  intros HN Hr. unfold new_location, new_location_even, new_location_odd.
  destruct (Z.even m) eqn:Em.
  - destruct (Z.eqb_spec r 0) as [-> | Hr0]; simpl; [ lia | ].
    destruct (Z.compare_spec (2 * r) m) as [H | H | H]; simpl;
      try destruct (Z.even q); lia.
  - destruct (Z.eqb_spec r 0) as [-> | Hr0]; simpl; [ lia | ].
    assert (Hodd : 2 * r <> m).
    { intros <-. rewrite Z.even_mul in Em. discriminate Em. }
    destruct (Z.compare_spec (2 * r + 1) m) as [H | H | H]; simpl; lia.
Qed.

Lemma div_eucl_eq (a b : Z) : Z.div_eucl a b = (a / b, a mod b).
Proof. unfold Z.div, Z.modulo. destruct (Z.div_eucl a b); reflexivity. Qed.

Lemma literal_one : literal 1 0 = S754_finite false one_mantissa (-52).
Proof. vm_compute. reflexivity. Qed.

(** The division core for [1.0 / (m * 2^e)] with a 53-bit [m]. *)
Lemma SFdiv_core_one (m : positive) (e : Z) :
  2 ^ 52 <= Z.pos m < 2 ^ 53 -> e <= 969 ->
  SFdiv_core_binary prec emax (Z.pos one_mantissa) (-52) (Z.pos m) e
  = (2 ^ 105 / Z.pos m, -105 - e,
     new_location (Z.pos m) (2 ^ 105 mod Z.pos m)).
Proof.
  intros Hm He. unfold SFdiv_core_binary.
  change (Zdigits2 (Z.pos one_mantissa)) with 53.
  change (Zdigits2 (Z.pos m)) with (Z.pos (digits2_pos m)).
  rewrite (digits2_pos_unique m 53) by (simpl; lia).
  rewrite fexp_eq.
  replace (Z.min (Z.max (53 + -52 - (53 + e) - 53) (-1074)) (-52 - e))
    with (-105 - e) by lia.
  replace (-52 - e - (-105 - e)) with 53 by lia.
  cbv iota beta.
  change (Z.shiftl (Z.pos one_mantissa) 53) with (2 ^ 105).
  rewrite div_eucl_eq. reflexivity.
Qed.

(** [1.0 / x] for a normal [x = m * 2^e]: the quotient is the normal float
    nearest to the exact reciprocal. *)
Lemma fdiv_one_normal (s : bool) (m : positive) (e : Z) :
  2 ^ 52 <= Z.pos m < 2 ^ 53 -> -1074 <= e <= 969 ->
  exists (n : positive) (f : Z),
    fdiv (literal 1 0) (S754_finite s m e) = S754_finite s n f /\
    2 ^ 52 <= Z.pos n < 2 ^ 53 /\
    ((f = -105 - e /\
      2 * Z.abs (Z.pos n * Z.pos m - 2 ^ 105) <= Z.pos m) \/
     (Z.pos m = 2 ^ 52 /\ Z.pos n = 2 ^ 52 /\ f = -104 - e)).
Proof.
  intros Hm He. rewrite literal_one. unfold fdiv, SFdiv.
  rewrite (SFdiv_core_one m e Hm) by lia. cbv iota beta.
  change (xorb false s) with s.
  destruct (Z.eq_dec (Z.pos m) (2 ^ 52)) as [Heq | Hne].
  - (* a power of two: the quotient is exact and has 54 bits *)
    assert (Hm' : m = one_mantissa) by (apply Pos2Z.inj; exact Heq).
    subst m. exists one_mantissa, (-104 - e).
    change (2 ^ 105 / Z.pos one_mantissa) with (Z.pos 9007199254740992).
    change (2 ^ 105 mod Z.pos one_mantissa) with 0.
    change (new_location (Z.pos one_mantissa) 0) with loc_Exact.
    split; [ | split; [ exact Hm | right; repeat split; lia ] ].
    unfold binary_round_aux.
    rewrite (shr_fexp_shift1 9007199254740992 (-105 - e) loc_Exact)
      by (try reflexivity; lia).
    simpl shr_1. simpl shr_m.
    cbn [round_nearest_even loc_of_shr_record].
    rewrite (shr_fexp_noshift 4503599627370496 (-105 - e + 1) loc_Exact)
      by (try (simpl; lia); lia).
    simpl shr_m.
    replace (-105 - e + 1 <=? emax - prec) with true
      by (symmetry; apply Z.leb_le; unfold emax, prec; lia).
    f_equal. lia.
  - pose proof (Z.div_mod (2 ^ 105) (Z.pos m) ltac:(lia)) as Hdiv.
    pose proof (Z.mod_pos_bound (2 ^ 105) (Z.pos m) ltac:(lia)) as Hmod.
    set (q := 2 ^ 105 / Z.pos m) in *.
    set (r := 2 ^ 105 mod Z.pos m) in *.
    assert (Hq : 2 ^ 52 <= q < 2 ^ 53) by nia.
    destruct q as [ | qp | qp ] eqn:Eq; [ lia | | lia ].
    assert (Hd : Z.pos (digits2_pos qp) <= 53)
      by (rewrite (digits2_pos_unique qp 53); simpl; lia).
    destruct (binary_round_aux_53 s qp (-105 - e)
                (new_location (Z.pos m) r) Hd ltac:(lia))
      as (q' & Hq' & Hres).
    pose proof (round_quotient_nearest (2 ^ 105) (Z.pos m) (Z.pos qp) r
                  ltac:(lia) Hmod) as Hnear.
    rewrite <- Hq' in Hnear.
    pose proof (round_nearest_even_cases (Z.pos qp)
                  (new_location (Z.pos m) r)) as Hcases.
    rewrite <- Hq' in Hcases.
    destruct Hres as [[Hlt ->] | [Heq2 _]].
    + exists q', (-105 - e). split; [ reflexivity | ].
      split; [ lia | left; split; [ reflexivity | exact Hnear ] ].
    + exfalso. rewrite Heq2 in Hnear. lia.
Qed.

(** Two reciprocals in a row bring a normal float back to itself or to
    one of its two neighbours. *)
Lemma reciprocal_twice (s : bool) (m : positive) (e : Z) :
  2 ^ 52 <= Z.pos m < 2 ^ 53 -> -1073 <= e <= 969 ->
  exists (n : positive) (f : Z) (p : positive),
    fdiv (literal 1 0) (S754_finite s m e) = S754_finite s n f /\
    fdiv (literal 1 0) (S754_finite s n f) = S754_finite s p e /\
    2 ^ 52 <= Z.pos n < 2 ^ 53 /\ -105 - e <= f <= -104 - e /\
    2 ^ 52 <= Z.pos p < 2 ^ 53 /\
    Z.abs (Z.pos p - Z.pos m) <= 1.
Proof.
  intros Hm He.
  destruct (fdiv_one_normal s m e Hm ltac:(lia))
    as (n & f & Hy & Hn & [[Hf Hnear] | (Hm2 & Hn2 & Hf)]).
  - destruct (fdiv_one_normal s n f Hn ltac:(lia))
      as (p & g & Hz & Hp & [[Hg Hnear2] | (Hn2 & Hp2 & Hg)]).
    + exists n, f, p. replace g with e in Hz by lia.
      repeat split; try assumption; try lia. nia.
    + exfalso. rewrite Hn2 in Hnear. lia.
  - destruct (fdiv_one_normal s n f Hn ltac:(lia))
      as (p & g & Hz & Hp & [[Hg Hnear2] | (_ & Hp2 & Hg)]).
    + exfalso. rewrite Hn2 in Hnear2. lia.
    + exists n, f, p. replace g with e in Hz by lia.
      repeat split; try assumption; lia.
Qed.

(** The difference of two neighbours is exact: one unit in the last
    place. *)
Lemma fsub_neighbours (p m : positive) (e : Z) :
  -1022 <= e <= 1022 ->
  Z.abs (Z.pos p - Z.pos m) <= 1 ->
  fabs (fsub (S754_finite false p e) (S754_finite false m e)) = zero \/
  fabs (fsub (S754_finite false p e) (S754_finite false m e))
  = S754_finite false one_mantissa (e - 52).
Proof.
  intros He Hpm. unfold fsub, SFsub. rewrite Z.min_id.
  unfold shl_align. rewrite Z.sub_diag. cbn [fst cond_Zopp].
  assert (Hcases : Z.pos p - Z.pos m = 0 \/ Z.pos p - Z.pos m = 1 \/
                   Z.pos p - Z.pos m = -1) by lia.
  assert (Hone : forall sx : bool,
             binary_round prec emax sx 1 e
             = S754_finite sx one_mantissa (e - 52)).
  { intros sx. unfold binary_round, shl_align. rewrite fexp_eq.
    change (Z.pos (digits2_pos 1)) with 1.
    replace (Z.max (1 + e - 53) (-1074)) with (e - 52) by lia.
    replace (e - 52 - e) with (-52) by lia. cbv iota beta.
    change (Pos.iter xO 1%positive 52) with one_mantissa.
    destruct (binary_round_aux_53 sx one_mantissa (e - 52) loc_Exact)
      as (q' & Hq' & [[_ ->] | [Hq2 _]]).
    - simpl. lia.
    - lia.
    - simpl in Hq'. f_equal. apply Pos2Z.inj. exact Hq'.
    - simpl in Hq'. rewrite Hq' in Hq2. discriminate Hq2. }
  destruct Hcases as [-> | [-> | ->]].
  - left. reflexivity.
  - right. simpl binary_normalize. rewrite Hone. reflexivity.
  - right. simpl binary_normalize. rewrite Hone. reflexivity.
Qed.

(** The division core for [1.0 / (m * 2^e)] at the two largest exponents:
    the quotient is taken at the least exponent. *)
Lemma SFdiv_core_one_top (m : positive) (e : Z) :
  2 ^ 52 <= Z.pos m < 2 ^ 53 -> 970 <= e <= 971 ->
  SFdiv_core_binary prec emax (Z.pos one_mantissa) (-52) (Z.pos m) e
  = (2 ^ (1074 - e) / Z.pos m, -1074,
     new_location (Z.pos m) (2 ^ (1074 - e) mod Z.pos m)).
Proof.
  intros Hm He. unfold SFdiv_core_binary.
  change (Zdigits2 (Z.pos one_mantissa)) with 53.
  change (Zdigits2 (Z.pos m)) with (Z.pos (digits2_pos m)).
  rewrite (digits2_pos_unique m 53) by (simpl; lia).
  rewrite fexp_eq.
  replace (Z.min (Z.max (53 + -52 - (53 + e) - 53) (-1074)) (-52 - e))
    with (-1074) by lia.
  assert (Hcases : e = 970 \/ e = 971) by lia.
  destruct Hcases as [-> | ->]; cbv iota beta.
  - change (-52 - 970 - -1074) with 52. cbv iota beta.
    change (Z.shiftl (Z.pos one_mantissa) 52) with (2 ^ (1074 - 970)).
    rewrite div_eucl_eq. reflexivity.
  - change (-52 - 971 - -1074) with 51. cbv iota beta.
    change (Z.shiftl (Z.pos one_mantissa) 51) with (2 ^ (1074 - 971)).
    rewrite div_eucl_eq. reflexivity.
Qed.

(** [1.0 / x] is a finite non-zero float with the sign of [x] for every
    normal [x]. *)
Lemma fdiv_one_finite (s : bool) (m : positive) (e : Z) :
  2 ^ 52 <= Z.pos m < 2 ^ 53 -> -1074 <= e <= 971 ->
  exists (n : positive) (f : Z),
    fdiv (literal 1 0) (S754_finite s m e) = S754_finite s n f /\
    -1074 <= f <= Z.max (-104 - e) (-1073).
Proof.
  intros Hm He. destruct (Z_le_gt_dec e 969) as [Hle | Hgt].
  - destruct (fdiv_one_normal s m e Hm ltac:(lia))
      as (n & f & Hy & _ & [[Hf _] | (_ & _ & Hf)]);
      exists n, f; (split; [ exact Hy | lia ]).
  - rewrite literal_one. unfold fdiv, SFdiv.
    rewrite (SFdiv_core_one_top m e Hm) by lia. cbv iota beta.
    change (xorb false s) with s.
    assert (Hpow : 2 ^ (1074 - e) = 2 ^ 104 \/ 2 ^ (1074 - e) = 2 ^ 103).
    { assert (Hcases : e = 970 \/ e = 971) by lia.
      destruct Hcases as [-> | ->]; [ left | right ]; reflexivity. }
    set (N := 2 ^ (1074 - e)) in *.
    pose proof (Z.div_mod N (Z.pos m) ltac:(lia)) as Hdiv.
    pose proof (Z.mod_pos_bound N (Z.pos m) ltac:(lia)) as Hmod.
    set (q := N / Z.pos m) in *. set (r := N mod Z.pos m) in *.
    assert (Hq : 2 ^ 50 <= q <= 2 ^ 52) by (destruct Hpow; nia).
    destruct q as [ | qp | qp ] eqn:Eq; [ lia | | lia ].
    assert (Hd : Z.pos (digits2_pos qp) <= 53).
    { pose proof (digits2_pos_bounds qp) as [Hlo _].
      destruct (Z_le_gt_dec (Z.pos (digits2_pos qp)) 53) as [ | Hbig ];
        [ assumption | ].
      assert (2 ^ 53 <= 2 ^ (Z.pos (digits2_pos qp) - 1))
        by (apply Z.pow_le_mono_r; lia).
      lia. }
    destruct (binary_round_aux_53 s qp (-1074)
                (new_location (Z.pos m) r) Hd ltac:(lia))
      as (q' & _ & [[_ ->] | [_ ->]]).
    + exists q', (-1074). split; [ reflexivity | lia ].
    + exists 4503599627370496%positive, (-1074 + 1).
      split; [ reflexivity | lia ].
Qed.

(* ===================================================================== *)
(** ** The reciprocal pair *)
(* ===================================================================== *)

Lemma tolerance_value :
  tolerance calculator = S754_finite false 7737125245533627 (-86).
Proof. vm_compute. reflexivity. Qed.

Lemma literal_two_19 :
  literal 524288 0 = S754_finite false one_mantissa (-33).
Proof. vm_compute. reflexivity. Qed.

Lemma between_tolerance_and_two_19 (x : float) :
  valid_binary prec emax x = true ->
  fgt x (tolerance calculator) = true ->
  flt x (literal 524288 0) = true ->
  exists (m : positive) (e : Z),
    x = S754_finite false m e /\
    2 ^ 52 <= Z.pos m < 2 ^ 53 /\ -86 <= e <= -34.
Proof.
  rewrite tolerance_value, literal_two_19. unfold fgt, flt, SFltb.
  intros Hvalid Hlo Hhi.
  destruct x as [sx | sx | | sx m e]; cbn [SFcompare] in Hlo, Hhi;
    try discriminate; try (destruct sx; discriminate).
  destruct sx; [ discriminate | ].
  exists m, e. split; [ reflexivity | ].
  cbn [valid_binary] in Hvalid. unfold bounded, canonical_mantissa in Hvalid.
  apply andb_prop in Hvalid as [Hcanon _].
  apply Z.eqb_eq in Hcanon. rewrite fexp_eq in Hcanon.
  pose proof (digits2_pos_bounds m) as Hbounds.
  assert (He1 : -86 <= e).
  { destruct (Z.compare_spec (-86) e); first [ lia | discriminate ]. }
  assert (Hd : Z.pos (digits2_pos m) = 53) by lia.
  rewrite Hd in Hbounds. change (53 - 1) with 52 in Hbounds.
  split; [ exact Hbounds | ]. split; [ exact He1 | ].
  destruct (Z.compare_spec e (-33)) as [Heq | Hlt | Hgt];
    [ | lia | first [ lia | discriminate ] ].
  subst e. exfalso.
  assert (Hcmp : (m ?= one_mantissa)%positive = Lt).
  { unfold Pos.compare.
    destruct (Pos.compare_cont Eq m one_mantissa); congruence. }
  apply Pos.compare_lt_iff in Hcmp.
  assert (Z.pos m < Z.pos one_mantissa) by (apply Pos2Z.pos_lt_pos; exact Hcmp).
  change (Z.pos one_mantissa) with (2 ^ 52) in *. lia.
Qed.

Lemma literal_tolerance :
  literal 1 (-10) = S754_finite false 7737125245533627 (-86).
Proof. vm_compute. reflexivity. Qed.

(** Comparing a positive finite float with the tolerance goes by the
    exponent first. *)
Lemma flt_tolerance_exponent (m : positive) (e : Z) :
  (e < -86 -> flt (S754_finite false m e) (tolerance calculator) = true) /\
  (-86 < e -> flt (S754_finite false m e) (tolerance calculator) = false).
Proof.
  rewrite tolerance_value. unfold flt, SFltb. cbn [SFcompare].
  split; intros He.
  - apply Z.compare_lt_iff in He. rewrite He. reflexivity.
  - apply Z.compare_gt_iff in He. rewrite He. reflexivity.
Qed.

Lemma truediv_finite (x : float) (s : bool) (m : positive) (e : Z) :
  truediv x (S754_finite s m e) = ret (fdiv x (S754_finite s m e)).
Proof. destruct s; reflexivity. Qed.

(** X5. Round trip on the range where it holds.  For every binary64
    [mu] above the tolerance and below [2^19 = 524288],
    [calculate_tau_from_mu] and then [calculate_mu_from_tau] both take
    the division branch, emit no warning, and bring back a value within
    [1e-10] of [mu]: two correctly rounded reciprocals move a float by at
    most one unit in the last place, which is below [1e-10] up to
    [2^19]. *)
Theorem round_trip_within_tolerance (mu : float) :
  valid_binary prec emax mu = true ->
  fgt mu (tolerance calculator) = true ->
  flt mu (literal 524288 0) = true ->
  exists tau back : float,
    calculate_tau_from_mu calculator mu = ([], Return tau) /\
    calculate_mu_from_tau calculator tau = ([], Return back) /\
    within back mu (literal 1 (-10)) = true.
Proof.
  intros Hvalid Hlo Hhi.
  assert (Hguard : flt mu (tolerance calculator) = false)
    by (apply fle_flt_false, flt_fle; exact Hlo).
  destruct (between_tolerance_and_two_19 mu Hvalid Hlo Hhi)
    as (m & e & -> & Hm & He).
  destruct (reciprocal_twice false m e Hm ltac:(lia))
    as (n & f & p & Hy & Hz & Hn & Hf & Hp & Hpm).
  exists (S754_finite false n f), (S754_finite false p e).
  split; [ | split ].
  - unfold calculate_tau_from_mu. cbn [fabs SFabs]. rewrite Hguard.
    rewrite truediv_finite, Hy. reflexivity.
  - unfold calculate_mu_from_tau. cbn [fabs SFabs].
    rewrite (proj2 (flt_tolerance_exponent n f)) by lia.
    rewrite truediv_finite, Hz. reflexivity.
  - unfold within. change (literal 1 (-10)) with (tolerance calculator).
    destruct (fsub_neighbours p m e ltac:(lia) Hpm) as [-> | ->].
    + exact tolerance_positive.
    + destruct (Z.eq_dec e (-34)) as [-> | Hne].
      * vm_compute. reflexivity.
      * apply (proj1 (flt_tolerance_exponent one_mantissa (e - 52))). lia.
Qed.

Lemma round_trip_within_tolerance_witness :
  valid_binary prec emax (literal 2 0) = true /\
  fgt (literal 2 0) (tolerance calculator) = true /\
  flt (literal 2 0) (literal 524288 0) = true /\
  exists tau back : float,
    calculate_tau_from_mu calculator (literal 2 0) = ([], Return tau) /\
    calculate_mu_from_tau calculator tau = ([], Return back) /\
    within back (literal 2 0) (literal 1 (-10)) = true.
Proof.
  split; [ reflexivity | ]. split; [ reflexivity | ].
  split; [ reflexivity | ].
  apply (round_trip_within_tolerance (literal 2 0)); reflexivity.
Defined.

(** A valid float that is not below a normal bound [b * 2^eb] in
    magnitude is an infinity or a normal number of exponent at least
    [eb]. *)
Lemma fle_fabs_inv (b : positive) (eb : Z) (x : float) :
  2 ^ 52 <= Z.pos b -> -1074 <= eb ->
  valid_binary prec emax x = true ->
  fle (S754_finite false b eb) (fabs x) = true ->
  (exists s, x = S754_infinity s) \/
  (exists s m e, x = S754_finite s m e /\
                 2 ^ 52 <= Z.pos m < 2 ^ 53 /\ eb <= e <= 971).
Proof.
  intros Hb Heb Hvalid Hfar. unfold fle, SFleb in Hfar.
  destruct x as [s | s | | s m e]; cbn [fabs SFabs SFcompare] in Hfar;
    try discriminate.
  - left. exists s. reflexivity.
  - right. exists s, m, e. split; [ reflexivity | ].
    cbn [valid_binary] in Hvalid.
    unfold bounded, canonical_mantissa in Hvalid.
    apply andb_prop in Hvalid as [Hcanon Hmax].
    apply Z.eqb_eq in Hcanon. rewrite fexp_eq in Hcanon.
    apply Z.leb_le in Hmax. unfold emax, prec in Hmax.
    pose proof (digits2_pos_bounds m) as Hbounds.
    assert (He : eb < e \/ (eb = e /\ Z.pos b <= Z.pos m)).
    { destruct (Z.compare_spec eb e) as [Heq | Hlt | Hgt];
        [ right | left; exact Hlt | discriminate ].
      split; [ exact Heq | ].
      change (Pos.compare_cont Eq b m) with (b ?= m)%positive in Hfar.
      destruct (Pos.compare_spec b m); first [ lia | discriminate ]. }
    assert (Hd : Z.pos (digits2_pos m) = 53).
    { destruct He as [He | [He Hbm]]; [ lia | ].
      destruct (Z_le_gt_dec 53 (Z.pos (digits2_pos m))) as [ | Hsmall ];
        [ lia | exfalso ].
      assert (2 ^ Z.pos (digits2_pos m) <= 2 ^ 52)
        by (apply Z.pow_le_mono_r; lia).
      lia. }
    rewrite Hd in Hbounds. change (53 - 1) with 52 in Hbounds.
    split; [ exact Hbounds | lia ].
Qed.

Lemma far_inv (x : float) :
  valid_binary prec emax x = true ->
  fle (tolerance calculator) (fabs x) = true ->
  (exists s, x = S754_infinity s) \/
  (exists s m e, x = S754_finite s m e /\
                 2 ^ 52 <= Z.pos m < 2 ^ 53 /\ -86 <= e <= 971).
Proof.
  rewrite tolerance_value. apply fle_fabs_inv; lia.
Qed.

(** Away from zero both conversions are the plain reciprocal and keep the
    sign of their argument. *)
Lemma reciprocal_far (x : float) :
  valid_binary prec emax x = true ->
  fle (tolerance calculator) (fabs x) = true ->
  calculate_tau_from_mu calculator x = ([], Return (fdiv (literal 1 0) x)) /\
  calculate_mu_from_tau calculator x = ([], Return (fdiv (literal 1 0) x)) /\
  signbit (fdiv (literal 1 0) x) = signbit x /\
  (isfinite x = true ->
   isfinite (fdiv (literal 1 0) x) = true /\
   feq (fdiv (literal 1 0) x) zero = false /\
   flt (fdiv (literal 1 0) x) zero = flt x zero /\
   fgt (fdiv (literal 1 0) x) zero = fgt x zero) /\
  (isinf x = true -> feq (fdiv (literal 1 0) x) zero = true).
Proof.
  intros Hvalid Hfar.
  split; [ | split ].
  - unfold calculate_tau_from_mu. rewrite (fle_flt_false _ _ Hfar).
    apply truediv_far. exact Hfar.
  - unfold calculate_mu_from_tau. rewrite (fle_flt_false _ _ Hfar).
    apply truediv_far. exact Hfar.
  - destruct (far_inv x Hvalid Hfar) as [[s ->] | (s & m & e & -> & Hm & He)].
    + rewrite literal_one. split; [ reflexivity | ].
      split; [ discriminate | intros _; destruct s; reflexivity ].
    + destruct (fdiv_one_finite s m e Hm ltac:(lia)) as (n & f & -> & _).
      split; [ reflexivity | ].
      split; [ | discriminate ].
      intros _. destruct s; repeat split; reflexivity.
Qed.

Lemma SFcompare_total (x y : float) :
  isnan x = false -> isnan y = false -> exists c, SFcompare x y = Some c.
Proof.
  destruct x as [sx | sx | | sx mx ex], y as [sy | sy | | sy my ey];
    cbn [isnan SFcompare]; try discriminate; intros _ _; eauto.
Qed.

(** Of two numbers, one is below the other or the other is at most it. *)
Lemma flt_false_fle (x y : float) :
  isnan x = false -> isnan y = false ->
  flt x y = false -> fle y x = true.
Proof.
  intros Hx Hy. unfold flt, fle, SFltb, SFleb.
  rewrite (SFcompare_antisym x y).
  destruct (SFcompare_total x y Hx Hy) as [[ | | ] ->];
    cbn [option_map CompOpp]; congruence.
Qed.

(** X7. The sign through the reciprocal pair, for every binary64 input.
    Below the tolerance in magnitude, [calculate_tau_from_mu] and
    [calculate_mu_from_tau] warn and return [+inf] whatever the sign, so
    [x] and [-x] give the same answer.  Otherwise they return [1.0 / x]
    without a warning: a NaN for a NaN, and else a float with the sign bit
    of [x], finite, non-zero and on the same side of zero as [x] when [x]
    is finite, and a zero when [x] is infinite. *)
Theorem reciprocal_pair_sign (x : float) :
  valid_binary prec emax x = true ->
  if flt (fabs x) (tolerance calculator) then
    calculate_tau_from_mu calculator x = ([warn_mu], Return pos_inf) /\
    calculate_mu_from_tau calculator x = ([warn_tau], Return pos_inf) /\
    calculate_tau_from_mu calculator (fneg x)
    = calculate_tau_from_mu calculator x /\
    calculate_mu_from_tau calculator (fneg x)
    = calculate_mu_from_tau calculator x
  else
    exists y : float,
      calculate_tau_from_mu calculator x = ([], Return y) /\
      calculate_mu_from_tau calculator x = ([], Return y) /\
      y = fdiv (literal 1 0) x /\
      isnan y = isnan x /\
      (if isnan x then True else signbit y = signbit x) /\
      (if isfinite x
       then isfinite y = true /\ feq y zero = false /\
            flt y zero = flt x zero /\ fgt y zero = fgt x zero
       else True) /\
      (if isinf x then feq y zero = true else True).
Proof.
  intros Hvalid.
  destruct (flt (fabs x) (tolerance calculator)) eqn:Hguard.
  - unfold calculate_tau_from_mu, calculate_mu_from_tau.
    rewrite fabs_fneg, Hguard. repeat split; reflexivity.
  - destruct (isnan x) eqn:Hnan.
    + rewrite (isnan_inv x Hnan). exists nan. repeat split; reflexivity.
    + assert (Hfar : fle (tolerance calculator) (fabs x) = true).
      { apply flt_false_fle;
          [ rewrite isnan_fabs; exact Hnan | reflexivity | exact Hguard ]. }
      destruct (reciprocal_far x Hvalid Hfar)
        as (Htau & Hmu & Hsign & Hfin & Hinf).
      exists (fdiv (literal 1 0) x).
      split; [ exact Htau | ]. split; [ exact Hmu | ].
      split; [ reflexivity | ].
      split.
      { destruct (far_inv x Hvalid Hfar)
          as [[s ->] | (s & m & e & -> & Hm & He)].
        - destruct s; reflexivity.
        - destruct (fdiv_one_finite s m e Hm ltac:(lia)) as (n & f & -> & _).
          reflexivity. }
      split; [ exact Hsign | ]. split.
      * destruct (isfinite x); [ apply Hfin; reflexivity | exact I ].
      * destruct (isinf x); [ apply Hinf; reflexivity | exact I ].
Qed.

Lemma reciprocal_pair_sign_witness :
  valid_binary prec emax (fneg (literal 2 0)) = true /\
  exists y : float,
    calculate_tau_from_mu calculator (fneg (literal 2 0)) = ([], Return y) /\
    flt y zero = true.
Proof.
  split; [ reflexivity | ].
  pose proof (reciprocal_pair_sign (fneg (literal 2 0)) eq_refl) as H.
  vm_compute in H.
  destruct H as (y & Htau & _ & Hy & _).
  exists y. split; [ vm_compute; exact Htau | ].
  rewrite Hy. vm_compute. reflexivity.
Defined.

Lemma literal_two_34 :
  literal 17179869184 0 = S754_finite false one_mantissa (-18).
Proof. vm_compute. reflexivity. Qed.

Lemma literal_min_normal :
  literal 22250738585072014 (-324) = S754_finite false one_mantissa (-1074).
Proof. vm_compute. reflexivity. Qed.

(** X6. Round trip where it collapses.  For every binary64 [mu] of
    magnitude [2^34 = 17179869184] or more, infinities included,
    [calculate_tau_from_mu] returns a reciprocal below the tolerance, so
    [calculate_mu_from_tau] takes its near-zero branch: the round trip
    warns once and returns [+inf] instead of [mu]. *)
Theorem round_trip_collapses (mu : float) :
  valid_binary prec emax mu = true ->
  fle (literal 17179869184 0) (fabs mu) = true ->
  round_trip calculator mu = ([warn_tau], Return pos_inf).
Proof.
  intros Hvalid Hbig. rewrite literal_two_34 in Hbig.
  destruct (fle_fabs_inv one_mantissa (-18) mu ltac:(unfold one_mantissa; lia)
              ltac:(lia) Hvalid Hbig)
    as [[s ->] | (s & m & e & -> & Hm & He)].
  - destruct s; vm_compute; reflexivity.
  - unfold round_trip, calculate_tau_from_mu. cbn [fabs SFabs].
    rewrite (proj2 (flt_tolerance_exponent m e)) by lia.
    rewrite truediv_finite.
    assert (Hnear : exists n f,
               fdiv (literal 1 0) (S754_finite s m e) = S754_finite s n f /\
               flt (S754_finite false n f) (tolerance calculator) = true).
    { destruct (Z_le_gt_dec e 969) as [Hle | Hgt].
      - destruct (fdiv_one_normal s m e Hm ltac:(lia))
          as (n & f & Hy & Hn & [[Hf _] | (_ & Hn2 & Hf)]);
          exists n, f; (split; [ exact Hy | ]).
        + apply (proj1 (flt_tolerance_exponent n f)). lia.
        + destruct (Z.eq_dec e (-18)) as [-> | Hne].
          * assert (n = one_mantissa) by (apply Pos2Z.inj; exact Hn2).
            subst n f. vm_compute. reflexivity.
          * apply (proj1 (flt_tolerance_exponent n f)). lia.
      - destruct (fdiv_one_finite s m e Hm ltac:(lia)) as (n & f & Hy & Hf).
        exists n, f. split; [ exact Hy | ].
        apply (proj1 (flt_tolerance_exponent n f)). lia. }
    destruct Hnear as (n & f & -> & Hnear).
    unfold ret, bind, calculate_mu_from_tau. cbn [fabs SFabs].
    rewrite Hnear. reflexivity.
Qed.

Lemma round_trip_collapses_witness :
  valid_binary prec emax (literal 1 11) = true /\
  fle (literal 17179869184 0) (fabs (literal 1 11)) = true /\
  round_trip calculator (literal 1 11) = ([warn_tau], Return pos_inf).
Proof.
  split; [ reflexivity | ]. split; [ reflexivity | ].
  apply (round_trip_collapses (literal 1 11)); reflexivity.
Defined.

Lemma fsub_self_finite (s : bool) (n : positive) (f : Z) :
  fsub (S754_finite s n f) (S754_finite s n f) = zero.
Proof.
  unfold fsub, SFsub. rewrite Z.min_id. unfold shl_align.
  rewrite ?Z.sub_diag. cbn [fst]. rewrite ?Z.sub_diag. reflexivity.
Qed.

(** X13. Calculator and validator agree away from zero: for every
    binary64 [x] of magnitude at least the tolerance, the pair
    [(mu = x, tau = calculate_tau_from_mu(x))] passes
    [validate_parameters] with no message. *)
Theorem validator_accepts_reciprocal (x : float) :
  valid_binary prec emax x = true ->
  fle (tolerance calculator) (fabs x) = true ->
  exists ta : float,
    calculate_tau_from_mu calculator x = ([], Return ta) /\
    validate_parameters calculator (params_mu_tau x ta)
    = ([], Return (true, [])).
Proof.
  intros Hvalid Hfar.
  destruct (reciprocal_far x Hvalid Hfar) as (Htau & _).
  exists (fdiv (literal 1 0) x). split; [ exact Htau | ].
  rewrite validate_parameters_total. unfold mu_tau_inconsistent.
  cbn [params_mu_tau mu tau epsilon chi t rho present_and append_if].
  assert (Hne : fne x zero = true).
  { unfold fne. fold (feq x zero).
    rewrite (guard_nonzero calculator tolerance_positive x
               (fle_flt_false _ _ Hfar)).
    reflexivity. }
  rewrite Hne.
  assert (Hdiff : fabs (fsub (fdiv (literal 1 0) x)
                             (fdiv (literal 1 0) x)) = zero).
  { destruct (far_inv x Hvalid Hfar)
      as [[s ->] | (s & m & e & -> & Hm & He)].
    - destruct s; vm_compute; reflexivity.
    - destruct (fdiv_one_finite s m e Hm ltac:(lia)) as (n & f & -> & _).
      rewrite fsub_self_finite. reflexivity. }
  rewrite Hdiff.
  replace (fgt zero (tolerance calculator)) with false
    by (vm_compute; reflexivity).
  reflexivity.
Qed.

Lemma validator_accepts_reciprocal_witness :
  valid_binary prec emax (literal 2 0) = true /\
  fle (tolerance calculator) (fabs (literal 2 0)) = true /\
  exists ta : float,
    calculate_tau_from_mu calculator (literal 2 0) = ([], Return ta) /\
    validate_parameters calculator (params_mu_tau (literal 2 0) ta)
    = ([], Return (true, [])).
Proof.
  split; [ reflexivity | ]. split; [ reflexivity | ].
  apply (validator_accepts_reciprocal (literal 2 0)); reflexivity.
Defined.

(** X14. Calculator and validator disagree near zero: for every normal
    binary64 [x] of magnitude below the tolerance,
    [calculate_tau_from_mu(x)] is [+inf], and the pair
    [(mu = x, tau = +inf)] is rejected by [validate_parameters] with the
    inconsistency message, since the validator compares [tau] with the
    plain [1.0 / x]. *)
Theorem validator_rejects_near_zero (x : float) :
  valid_binary prec emax x = true ->
  fle (literal 22250738585072014 (-324)) (fabs x) = true ->
  flt (fabs x) (tolerance calculator) = true ->
  calculate_tau_from_mu calculator x = ([warn_mu], Return pos_inf) /\
  validate_parameters calculator (params_mu_tau x pos_inf)
  = ([], Return (false, [msg_mu_tau])).
Proof.
  intros Hvalid Hnormal Hnear. rewrite literal_min_normal in Hnormal.
  split.
  - unfold calculate_tau_from_mu. rewrite Hnear. reflexivity.
  - destruct (fle_fabs_inv one_mantissa (-1074) x ltac:(unfold one_mantissa; lia)
                ltac:(lia) Hvalid Hnormal)
      as [[s ->] | (s & m & e & -> & Hm & He)].
    + vm_compute in Hnear. discriminate Hnear.
    + rewrite validate_parameters_total. unfold mu_tau_inconsistent.
      cbn [params_mu_tau mu tau epsilon chi t rho present_and append_if].
      replace (fne (S754_finite s m e) zero) with true
        by (destruct s; reflexivity).
      destruct (fdiv_one_finite s m e Hm ltac:(lia)) as (n & f & -> & _).
      reflexivity.
Qed.

Lemma validator_rejects_near_zero_witness :
  valid_binary prec emax (literal 1 (-11)) = true /\
  fle (literal 22250738585072014 (-324)) (fabs (literal 1 (-11))) = true /\
  flt (fabs (literal 1 (-11))) (tolerance calculator) = true /\
  calculate_tau_from_mu calculator (literal 1 (-11))
  = ([warn_mu], Return pos_inf) /\
  validate_parameters calculator (params_mu_tau (literal 1 (-11)) pos_inf)
  = ([], Return (false, [msg_mu_tau])).
Proof.
  split; [ reflexivity | ]. split; [ reflexivity | ].
  split; [ reflexivity | ].
  apply (validator_rejects_near_zero (literal 1 (-11))); reflexivity.
Defined.

(* ===================================================================== *)
(** ** The formulations never raise *)
(* ===================================================================== *)

Lemma bind_ret_l {A B} (a : A) (k : A -> M B) : bind (ret a) k = k a.
Proof. unfold bind, ret. destruct (k a). reflexivity. Qed.

Lemma bind_return {A B} (w : list string) (a : A) (k : A -> M B) :
  bind (w, Return a) k = (w ++ fst (k a), snd (k a)).
Proof. unfold bind. destruct (k a). reflexivity. Qed.

Lemma mu_quantum_returns (nu epsilon : float) :
  exists v, calculate_mu_quantum calculator nu epsilon
            = (if flt (fabs epsilon) (tolerance calculator)
               then [warn_epsilon] else [], Return v).
Proof.
  unfold calculate_mu_quantum.
  destruct (flt (fabs epsilon) (tolerance calculator)) eqn:E;
    [ eexists; reflexivity | ].
  rewrite (truediv_ok _ _ E). eexists; reflexivity.
Qed.

Lemma mu_state_returns (psi1 psi2 zeta1 zeta2 : float) :
  exists v, calculate_mu_state calculator psi1 psi2 zeta1 zeta2
            = (if flt (fabs (fsub zeta2 zeta1)) (tolerance calculator)
               then [warn_delta_zeta] else [], Return v).
Proof.
  unfold calculate_mu_state.
  destruct (flt (fabs (fsub zeta2 zeta1)) (tolerance calculator)) eqn:E;
    [ eexists; reflexivity | ].
  rewrite (truediv_ok _ _ E). eexists; reflexivity.
Qed.

Lemma mu_thermodynamic_returns (delta_s t chi : float) :
  exists v, calculate_mu_thermodynamic calculator delta_s t chi
            = (if flt (fabs chi) (tolerance calculator)
               then [warn_chi_thermo]
               else if flt (fabs t) (tolerance calculator)
                    then [warn_time] else [], Return v).
Proof.
  unfold calculate_mu_thermodynamic.
  destruct (flt (fabs chi) (tolerance calculator)) eqn:E;
    [ eexists; reflexivity | ].
  destruct (flt (fabs t) (tolerance calculator)) eqn:E';
    [ eexists; reflexivity | ].
  rewrite (truediv_ok _ _ E'). cbn [bind ret].
  rewrite (truediv_ok _ _ E). eexists; reflexivity.
Qed.

Lemma mu_gravitational_returns (rho chi : float) :
  exists v, calculate_mu_gravitational calculator rho chi
            = (if flt (fabs chi) (tolerance calculator)
               then [warn_chi_grav] else [], Return v).
Proof.
  unfold calculate_mu_gravitational.
  destruct (flt (fabs chi) (tolerance calculator)) eqn:E;
    [ eexists; reflexivity | ].
  rewrite (truediv_ok _ _ E). eexists; reflexivity.
Qed.

Lemma tau_from_mu_returns (mu : float) :
  exists v, calculate_tau_from_mu calculator mu
            = (if flt (fabs mu) (tolerance calculator)
               then [warn_mu] else [], Return v).
Proof.
  unfold calculate_tau_from_mu.
  destruct (flt (fabs mu) (tolerance calculator)) eqn:E;
    [ eexists; reflexivity | ].
  rewrite (truediv_ok _ _ E). eexists; reflexivity.
Qed.

Lemma mu_from_tau_returns (tau : float) :
  exists v, calculate_mu_from_tau calculator tau
            = (if flt (fabs tau) (tolerance calculator)
               then [warn_tau] else [], Return v).
Proof.
  unfold calculate_mu_from_tau.
  destruct (flt (fabs tau) (tolerance calculator)) eqn:E;
    [ eexists; reflexivity | ].
  rewrite (truediv_ok _ _ E). eexists; reflexivity.
Qed.

(** X1. None of the six formulations raises, whatever its arguments: each
    division is reached only behind a magnitude guard, and a magnitude not
    below the tolerance is not zero.  Each call returns a value, and it
    emits a warning exactly when a near-zero branch is taken: that
    branch's message, once. *)
Theorem formulations_never_raise :
  (forall nu epsilon : float,
      exists v, calculate_mu_quantum calculator nu epsilon
                = (if flt (fabs epsilon) (tolerance calculator)
                   then [warn_epsilon] else [], Return v)) /\
  (forall psi1 psi2 zeta1 zeta2 : float,
      exists v, calculate_mu_state calculator psi1 psi2 zeta1 zeta2
                = (if flt (fabs (fsub zeta2 zeta1)) (tolerance calculator)
                   then [warn_delta_zeta] else [], Return v)) /\
  (forall delta_s t chi : float,
      exists v, calculate_mu_thermodynamic calculator delta_s t chi
                = (if flt (fabs chi) (tolerance calculator)
                   then [warn_chi_thermo]
                   else if flt (fabs t) (tolerance calculator)
                        then [warn_time] else [], Return v)) /\
  (forall rho chi : float,
      exists v, calculate_mu_gravitational calculator rho chi
                = (if flt (fabs chi) (tolerance calculator)
                   then [warn_chi_grav] else [], Return v)) /\
  (forall mu : float,
      exists v, calculate_tau_from_mu calculator mu
                = (if flt (fabs mu) (tolerance calculator)
                   then [warn_mu] else [], Return v)) /\
  (forall tau : float,
      exists v, calculate_mu_from_tau calculator tau
                = (if flt (fabs tau) (tolerance calculator)
                   then [warn_tau] else [], Return v)).
Proof.
  split_and!; intros.
  - apply mu_quantum_returns.
  - apply mu_state_returns.
  - apply mu_thermodynamic_returns.
  - apply mu_gravitational_returns.
  - apply tau_from_mu_returns.
  - apply mu_from_tau_returns.
Qed.

(** X2. An empty [zeta] interval.  With [zeta1 = zeta2] finite,
    [calculate_mu_state] never divides: the difference is exactly zero, so
    it warns and returns [+inf] when [psi2 - psi1 > 0] and [0.0]
    otherwise.  With [zeta1 = zeta2] infinite or NaN the difference is a
    NaN, which passes the magnitude guard, and the result is a NaN with no
    warning. *)
Theorem mu_state_coincident_zeta (psi1 psi2 zeta : float) :
  calculate_mu_state calculator psi1 psi2 zeta zeta
  = if isfinite zeta
    then ([warn_delta_zeta],
          Return (if fgt (fsub psi2 psi1) zero then pos_inf else zero))
    else ([], Return nan).
Proof.
  unfold calculate_mu_state. destruct (isfinite zeta) eqn:Hz.
  - assert (Hd : fsub zeta zeta = zero).
    { destruct zeta as [[ | ] | [ | ] | | s m e]; try discriminate Hz;
        try reflexivity. apply fsub_self_finite. }
    rewrite Hd. replace (flt (fabs zero) (tolerance calculator)) with true
      by (vm_compute; reflexivity).
    reflexivity.
  - assert (Hd : fsub zeta zeta = nan)
      by (destruct zeta as [[ | ] | [ | ] | | s m e]; try discriminate Hz;
          reflexivity).
    rewrite Hd. cbn [fabs SFabs nan]. unfold truediv.
    replace (flt S754_nan (tolerance calculator)) with false by reflexivity.
    replace (feq nan zero) with false by reflexivity.
    unfold ret. rewrite fdiv_nan_r. reflexivity.
Qed.

(** X3. [QuantumVacuumSimulation.calculate_vacuum_mu(delta_psi,
    delta_zeta)], which calls the state formulation with both origins at
    zero, returns what [calculate_mu_quantum(delta_psi, delta_zeta)]
    returns, for all floats: subtracting zero changes nothing, signed
    zeros included.  Both warn in the same cases, each with its own
    message. *)
Theorem vacuum_mu_is_quantum (delta_psi delta_zeta : float) :
  result (calculate_vacuum_mu calculator delta_psi delta_zeta)
  = result (calculate_mu_quantum calculator delta_psi delta_zeta) /\
  length (warnings (calculate_vacuum_mu calculator delta_psi delta_zeta))
  = length (warnings (calculate_mu_quantum calculator delta_psi delta_zeta)).
Proof.
  unfold calculate_vacuum_mu, calculate_mu_state, calculate_mu_quantum.
  rewrite !fsub_zero_r.
  destruct (flt (fabs delta_zeta) (tolerance calculator));
    split; reflexivity.
Qed.

(** X4. When [|t|] is at least the tolerance,
    [calculate_mu_thermodynamic(delta_s, t, chi)] returns what
    [calculate_mu_gravitational(delta_s / t, chi)] returns: the entropy
    rate plays the part of the energy density, in the near-zero [chi]
    branch as well. *)
Theorem thermodynamic_is_gravitational_of_rate (delta_s t chi : float) :
  fle (tolerance calculator) (fabs t) = true ->
  result (calculate_mu_thermodynamic calculator delta_s t chi)
  = result (calculate_mu_gravitational calculator (fdiv delta_s t) chi).
Proof.
  intros Ht. unfold calculate_mu_thermodynamic, calculate_mu_gravitational.
  destruct (flt (fabs chi) (tolerance calculator)); [ reflexivity | ].
  rewrite (fle_flt_false _ _ Ht), (truediv_far _ _ Ht).
  cbn [bind ret]. destruct (truediv (fdiv delta_s t) chi). reflexivity.
Qed.

Lemma thermodynamic_is_gravitational_of_rate_witness :
  fle (tolerance calculator) (fabs (literal 10 0)) = true /\
  result (calculate_mu_thermodynamic calculator
            (literal 100 0) (literal 10 0) (literal 5 0))
  = result (calculate_mu_gravitational calculator
              (fdiv (literal 100 0) (literal 10 0)) (literal 5 0)).
Proof.
  split; [ reflexivity | ].
  apply (thermodynamic_is_gravitational_of_rate
           (literal 100 0) (literal 10 0) (literal 5 0)).
  reflexivity.
Defined.

(* ===================================================================== *)
(** ** The dispatcher *)
(* ===================================================================== *)

(** The common tail of the four preset branches. *)
Lemma preset_tail (c : M float) (results : gmap string value)
    (analysis : string) :
  (exists w m, c = (w, Return m)) ->
  exists w m ta,
    (let* mu := c in
     let* tau := calculate_tau_from_mu calculator mu in
     ret (update_results results mu tau analysis))
    = (w, Return (update_results results m ta analysis)) /\
    result (calculate_tau_from_mu calculator m) = Return ta.
Proof.
  intros (w & m & ->).
  destruct (tau_from_mu_returns m) as (ta & Hta).
  rewrite bind_return. cbv beta. rewrite Hta, bind_return.
  cbn [fst snd ret]. eexists _, m, ta.
  split; [ reflexivity | rewrite Hta; reflexivity ].
Qed.

Lemma get_float_number (params : gmap string kwarg) (key : string)
    (default : float) :
  (is_number params key = true /\
   exists v, get_float params key default = ret v) \/
  (is_number params key = false /\
   get_float params key default = raise TypeError).
Proof.
  unfold is_number, get_float.
  destruct (params !! key) as [[x | lo hi] | ]; eauto.
Qed.

Lemma get_range_pair (params : gmap string kwarg) (key : string)
    (default : float * float) :
  (is_pair params key = true /\
   exists v, get_range params key default = ret v) \/
  (is_pair params key = false /\
   get_range params key default = raise TypeError).
Proof.
  unfold is_pair, get_range.
  destruct (params !! key) as [[x | lo hi] | ]; eauto.
Qed.

Lemma preset_cases (scenario : string) :
  scenario ∈ presets ->
  scenario = "black_hole" \/ scenario = "light_speed" \/
  scenario = "quantum_vacuum" \/ scenario = "universe_expansion".
Proof.
  unfold presets. rewrite !elem_of_cons, elem_of_nil. tauto.
Qed.

Lemma preset_dec (scenario : string) :
  {scenario ∈ presets} + {scenario ∉ presets}.
Proof. destruct (decide (scenario ∈ presets)); [ left | right ]; assumption. Qed.

Ltac fetch_number key :=
  match goal with
  | |- context [get_float ?p key ?d] =>
      destruct (get_float_number p key d) as [[-> [? ->]] | [-> ->]]
  end.

Ltac fetch_pair key :=
  match goal with
  | |- context [get_range ?p key ?d] =>
      destruct (get_range_pair p key d) as [[-> [? ->]] | [-> ->]]
  end.

(** How every call of the dispatcher ends. *)
Lemma simulate_scenario_cases (scenario : string)
    (params : gmap string kwarg) :
  ((scenario ∉ presets) /\
   simulate_scenario calculator scenario params
   = ([], Return (echo scenario params))) \/
  (scenario ∈ presets /\ well_typed scenario params = true /\
   exists w m ta analysis,
     simulate_scenario calculator scenario params
     = (w, Return (update_results (echo scenario params) m ta analysis)) /\
     result (calculate_tau_from_mu calculator m) = Return ta) \/
  (scenario ∈ presets /\ well_typed scenario params = false /\
   simulate_scenario calculator scenario params = ([], Raise TypeError)).
Proof.
  destruct (preset_dec scenario) as [Hin | Hout].
  - right. destruct (preset_cases scenario Hin) as [-> | [-> | [-> | ->]]];
      unfold simulate_scenario, well_typed;
      repeat (first [ rewrite bool_decide_eq_true_2 by reflexivity
                    | rewrite bool_decide_eq_false_2 by discriminate ]);
      fold (echo "black_hole" params); fold (echo "light_speed" params);
      fold (echo "quantum_vacuum" params);
      fold (echo "universe_expansion" params).
    + fetch_number "chi"; [ | right; split_and!; reflexivity || done ].
      rewrite bind_ret_l.
      fetch_number "rho"; [ | right; split_and!; reflexivity || done ].
      rewrite bind_ret_l. left. split_and!; try done.
      edestruct preset_tail as (w & m & ta & H1 & H2);
        [ | exists w, m, ta; eexists; split; [ exact H1 | exact H2 ] ].
      edestruct mu_gravitational_returns as (v & ->). eauto.
    + fetch_number "epsilon"; [ | right; split_and!; reflexivity || done ].
      rewrite bind_ret_l.
      fetch_number "nu"; [ | right; split_and!; reflexivity || done ].
      rewrite bind_ret_l. left. split_and!; try done.
      edestruct preset_tail as (w & m & ta & H1 & H2);
        [ | exists w, m, ta; eexists; split; [ exact H1 | exact H2 ] ].
      edestruct mu_quantum_returns as (v & ->). eauto.
    + fetch_pair "psi_range"; [ | right; split_and!; reflexivity || done ].
      rewrite bind_ret_l.
      fetch_pair "zeta_range"; [ | right; split_and!; reflexivity || done ].
      rewrite bind_ret_l. left. split_and!; try done.
      edestruct preset_tail as (w & m & ta & H1 & H2);
        [ | exists w, m, ta; eexists; split; [ exact H1 | exact H2 ] ].
      edestruct mu_state_returns as (v & ->). eauto.
    + fetch_number "delta_s"; [ | right; split_and!; reflexivity || done ].
      rewrite bind_ret_l.
      fetch_number "t"; [ | right; split_and!; reflexivity || done ].
      rewrite bind_ret_l.
      fetch_number "chi"; [ | right; split_and!; reflexivity || done ].
      rewrite bind_ret_l. left. split_and!; try done.
      edestruct preset_tail as (w & m & ta & H1 & H2);
        [ | exists w, m, ta; eexists; split; [ exact H1 | exact H2 ] ].
      edestruct mu_thermodynamic_returns as (v & ->). eauto.
  - left. split; [ exact Hout | ].
    destruct (not_preset scenario Hout) as (H1 & H2 & H3 & H4).
    unfold simulate_scenario.
    rewrite !bool_decide_eq_false_2 by assumption. reflexivity.
Qed.

(** X8. A preset called with keywords of the shape its branch uses always
    returns, whatever the numbers: the result holds exactly the five keys
    [scenario], [parameters], [mu], [tau] and [analysis], the first two
    echoing the call, and its [tau] is what [calculate_tau_from_mu] gives
    for its [mu]. *)
Theorem preset_scenario_returns (scenario : string)
    (params : gmap string kwarg) :
  scenario ∈ presets ->
  well_typed scenario params = true ->
  exists (w : list string) (r : gmap string value) (m ta : float)
         (analysis : string),
    simulate_scenario calculator scenario params = (w, Return r) /\
    r !! "scenario" = Some (VStr scenario) /\
    r !! "parameters" = Some (VParams params) /\
    r !! "mu" = Some (VFloat m) /\
    r !! "tau" = Some (VFloat ta) /\
    r !! "analysis" = Some (VStr analysis) /\
    result (calculate_tau_from_mu calculator m) = Return ta /\
    dom r = {["scenario"; "parameters"; "mu"; "tau"; "analysis"]}.
Proof.
  intros Hin Hty.
  destruct (simulate_scenario_cases scenario params)
    as [[Hout _] | [(_ & _ & w & m & ta & a & Hrun & Htau) | (_ & Hbad & _)]];
    [ contradiction | | congruence ].
  exists w, (update_results (echo scenario params) m ta a), m, ta, a.
  split; [ exact Hrun | ].
  unfold update_results, echo.
  split_and!;
    first [ exact Htau
          | by simplify_map_eq
          | rewrite !dom_insert_L, dom_singleton_L; set_solver ].
Qed.

Lemma quantum_vacuum_is_preset : "quantum_vacuum" ∈ presets.
Proof.
  unfold presets.
  repeat first [ apply list_elem_of_here | apply list_elem_of_further ].
Qed.

Lemma preset_scenario_returns_witness :
  "quantum_vacuum" ∈ presets /\
  well_typed "quantum_vacuum"
    {["psi_range" := KRange zero (literal 2 0)]} = true /\
  exists (w : list string) (r : gmap string value) (m ta : float)
         (analysis : string),
    simulate_scenario calculator "quantum_vacuum"
      {["psi_range" := KRange zero (literal 2 0)]} = (w, Return r) /\
    r !! "scenario" = Some (VStr "quantum_vacuum") /\
    r !! "parameters"
    = Some (VParams {["psi_range" := KRange zero (literal 2 0)]}) /\
    r !! "mu" = Some (VFloat m) /\
    r !! "tau" = Some (VFloat ta) /\
    r !! "analysis" = Some (VStr analysis) /\
    result (calculate_tau_from_mu calculator m) = Return ta /\
    dom r = {["scenario"; "parameters"; "mu"; "tau"; "analysis"]}.
Proof.
  split; [ exact quantum_vacuum_is_preset | ].
  split; [ reflexivity | ].
  apply (preset_scenario_returns "quantum_vacuum"
           {["psi_range" := KRange zero (literal 2 0)]}
           quantum_vacuum_is_preset).
  reflexivity.
Defined.


(** ** Validation *)

Lemma errors_sublist (b1 b2 b3 b4 b5 : bool) :
  append_if b5 msg_mu_tau
    (append_if b4 msg_rho
       (append_if b3 msg_t
          (append_if b2 msg_chi (append_if b1 msg_epsilon []))))
  `sublist_of` all_messages.
Proof.
  unfold all_messages.
  destruct b1, b2, b3, b4, b5; cbn [append_if app];
    repeat first [ apply sublist_nil
                 | apply sublist_skip
                 | apply sublist_cons ].
Qed.

(** X10. The messages of [validate_parameters] come in the order of its
    checks (epsilon, chi, t, rho, mu/tau), each at most once: the list is
    a subsequence of the five messages, without duplicates, of length at
    most five. *)
Theorem validate_messages_ordered (params : PhysicsParameters) :
  exists (is_valid : bool) (errors : list string),
    validate_parameters calculator params = ([], Return (is_valid, errors)) /\
    errors `sublist_of` all_messages /\
    NoDup errors /\ (length errors <= 5)%nat.
Proof.
  rewrite validate_parameters_total. cbv zeta.
  eexists _, _. split; [ reflexivity | ].
  match goal with
  | |- context [append_if ?b5 _ (append_if ?b4 _ (append_if ?b3 _
                  (append_if ?b2 _ (append_if ?b1 _ _))))] =>
      pose proof (errors_sublist b1 b2 b3 b4 b5) as Hsub
  end.
  split; [ exact Hsub | ]. split.
  - refine (sublist_NoDup _ _ _ Hsub).
    unfold all_messages. apply (bool_decide_unpack _). vm_compute. exact I.
  - apply sublist_length in Hsub. exact Hsub.
Qed.

(** X11. [validate_parameters] looks at [epsilon], [chi], [t], [rho],
    [mu] and [tau] only: two parameter sets that agree on these six get
    the same verdict, so [nu], [psi], [zeta] and [delta_s] are never
    checked. *)
Theorem validate_ignores_other_fields (p q : PhysicsParameters) :
  epsilon p = epsilon q -> chi p = chi q -> t p = t q ->
  rho p = rho q -> mu p = mu q -> tau p = tau q ->
  validate_parameters calculator p = validate_parameters calculator q.
Proof.
  intros He Hc Ht Hr Hm Hta.
  rewrite !validate_parameters_total. unfold mu_tau_inconsistent.
  rewrite He, Hc, Ht, Hr, Hm, Hta. reflexivity.
Qed.

Lemma validate_ignores_other_fields_witness :
  validate_parameters calculator
    {| nu := Some (fneg (literal 1 0)); epsilon := None;
       psi := Some nan; zeta := Some neg_inf;
       delta_s := Some (fneg (literal 1 0)); t := None; chi := None;
       rho := None; mu := None; tau := None |}
  = validate_parameters calculator PhysicsParameters_default.
Proof.
  apply validate_ignores_other_fields; reflexivity.
Defined.

Lemma present_and_nan (field : option float) (test : float -> bool) :
  nan_or_absent field = true ->
  (forall x, isnan x = true -> test x = false) ->
  present_and field test = false.
Proof.
  destruct field as [x | ]; [ | reflexivity ].
  intros Hx Htest. exact (Htest x Hx).
Qed.

(** X12. A NaN never fails a check.  When each of [epsilon], [chi], [t]
    and [rho] is absent or NaN, and [mu] or [tau] is absent or NaN,
    [validate_parameters] reports the parameters valid with no message:
    every comparison with a NaN is false. *)
Theorem validate_nan_is_silent (params : PhysicsParameters) :
  nan_or_absent (epsilon params) = true ->
  nan_or_absent (chi params) = true ->
  nan_or_absent (t params) = true ->
  nan_or_absent (rho params) = true ->
  nan_or_absent (mu params) = true \/ nan_or_absent (tau params) = true ->
  validate_parameters calculator params = ([], Return (true, [])).
Proof.
  intros He Hc Ht Hr Hmt.
  rewrite validate_parameters_total. cbv zeta.
  rewrite (present_and_nan _ _ He), (present_and_nan _ _ Hc),
          (present_and_nan _ _ Ht), (present_and_nan _ _ Hr);
    try (intros x Hx; rewrite (isnan_inv x Hx); reflexivity).
  assert (Hmu : mu_tau_inconsistent calculator params = false).
  { unfold mu_tau_inconsistent.
    destruct (mu params) as [m | ]; [ | reflexivity ].
    destruct (tau params) as [ta | ]; [ | reflexivity ].
    destruct Hmt as [Hm | Hta]; cbn [nan_or_absent] in *.
    - rewrite (isnan_inv m Hm).
      replace (fne nan zero) with true by reflexivity.
      rewrite fdiv_nan_r, fsub_nan_r. reflexivity.
    - rewrite (isnan_inv ta Hta).
      destruct (fne m zero); [ destruct (fdiv (literal 1 0) m) | ];
        reflexivity. }
  rewrite Hmu. reflexivity.
Qed.

Lemma validate_nan_is_silent_witness :
  validate_parameters calculator
    {| nu := None; epsilon := Some nan; psi := None; zeta := None;
       delta_s := None; t := Some nan; chi := Some nan; rho := Some nan;
       mu := Some nan; tau := Some (literal 1 0) |}
  = ([], Return (true, [])).
Proof.
  apply validate_nan_is_silent;
    [ reflexivity | reflexivity | reflexivity | reflexivity
    | left; reflexivity ].
Defined.

(* ===================================================================== *)
(** ** The scripts' calculators *)
(* ===================================================================== *)

Lemma guard_value :
  SimpleUniversalChange.guard = S754_finite false 5070602400912918 (-102).
Proof. vm_compute. reflexivity. Qed.

Lemma more_literals_certified :
  certified 1 (10 ^ 15) (literal 1 (-15)) = true /\
  certified 524288 1 (literal 524288 0) = true /\
  certified 17179869184 1 (literal 17179869184 0) = true /\
  certified 22250738585072014 (10 ^ 324) (literal 22250738585072014 (-324))
  = true.
Proof. vm_compute. repeat split; reflexivity. Qed.

Lemma guard_positive : flt zero SimpleUniversalChange.guard = true.
Proof. vm_compute. reflexivity. Qed.

(** What is below the scripts' guard is below the module's tolerance. *)
Lemma below_guard_below_tolerance (x : float) :
  flt (fabs x) SimpleUniversalChange.guard = true ->
  flt (fabs x) (tolerance calculator) = true.
Proof.
  rewrite guard_value, tolerance_value. unfold flt, SFltb.
  destruct x as [sx | sx | | sx m e]; cbn [fabs SFabs SFcompare];
    try discriminate; try reflexivity.
  destruct (Z.compare_spec e (-102)) as [-> | Hlt | Hgt]; intros H.
  - reflexivity.
  - assert (He : (e ?= -86) = Lt) by (apply Z.compare_lt_iff; lia).
    rewrite He. reflexivity.
  - discriminate.
Qed.

Lemma simple_truediv (x y : float) :
  flt (fabs y) SimpleUniversalChange.guard = false ->
  truediv x y = ret (fdiv x y).
Proof.
  exact (truediv_guarded {| tolerance := SimpleUniversalChange.guard |}
           guard_positive x y).
Qed.

(** X15. The calculators of [simple_earth_sim.py] and
    [refined_earth_sim.py] against the module's.  With their guard of
    [1e-15] they never raise and never warn, and they return what
    [UniversalChangeCalculator] returns except when the divisor's
    magnitude is below [1e-10] but not below [1e-15]: there the scripts
    return the plain quotient where the module returns [+inf]. *)
Theorem simple_calculator_vs_core :
  (forall rho chi : float,
      SimpleUniversalChange.calculate_mu_gravitational rho chi
      = ([], if flt (fabs chi) (tolerance calculator)
                && negb (flt (fabs chi) SimpleUniversalChange.guard)
             then Return (fdiv rho chi)
             else result (calculate_mu_gravitational calculator rho chi))) /\
  (forall mu : float,
      SimpleUniversalChange.calculate_tau_from_mu mu
      = ([], if flt (fabs mu) (tolerance calculator)
                && negb (flt (fabs mu) SimpleUniversalChange.guard)
             then Return (fdiv (literal 1 0) mu)
             else result (calculate_tau_from_mu calculator mu))).
Proof.
  split.
  - intros rho chi.
    unfold SimpleUniversalChange.calculate_mu_gravitational,
           calculate_mu_gravitational.
    destruct (flt (fabs chi) SimpleUniversalChange.guard) eqn:Hg.
    + rewrite (below_guard_below_tolerance chi Hg). reflexivity.
    + rewrite (simple_truediv rho chi Hg), andb_true_r.
      destruct (flt (fabs chi) (tolerance calculator)); reflexivity.
  - intros mu.
    unfold SimpleUniversalChange.calculate_tau_from_mu,
           calculate_tau_from_mu.
    destruct (flt (fabs mu) SimpleUniversalChange.guard) eqn:Hg.
    + rewrite (below_guard_below_tolerance mu Hg). reflexivity.
    + rewrite (simple_truediv (literal 1 0) mu Hg), andb_true_r.
      destruct (flt (fabs mu) (tolerance calculator)); reflexivity.
Qed.
